(** * Repository summaries and the RSS feed of the contributor-analytics site

    A shallow embedding of
    - the per-interval summary worker and the granularity gates of the
      summarizer pipeline ([generateRepoSummaryForInterval],
      [checkExistingSummary], the three [generate*RepoSummaries] pipes), and
    - the two RSS route handlers ([escapeXml], [stripMarkdown], [GET]).

    JavaScript strings are sequences of UTF-16 code units; the collaborators
    the worker imports (metrics query, summarizer, persistence, file helpers)
    are fields of an interface record and act on an abstract world.

    Conventions of the model:
    - an awaited call either completes with a value or throws an [Error];
      the run of a function body is its completion, the world it leaves and
      the trace of the calls it made, each with what came back;
    - [toDateString] and [getRepoFilePath] compute without touching the
      world but may throw; [existsSync] of [node:fs] reads the world and
      never throws;
    - a thrown value is null, undefined, or a value whose [message] reads
      as a string or as undefined;
    - the methods of the logger complete normally; a log line is recorded
      only when the context carries a logger ([logger?.]), and without one
      the arguments of the call are not evaluated;
    - [orderBy(desc(date))] compares the text of the date column code unit
      by code unit and keeps rows of equal date in table order. *)

From Stdlib Require Import List NArith Bool Ascii String Arith Lia.
From Stdlib Require Import Permutation Sorted.
Import ListNotations.
Local Open Scope list_scope.

Set Implicit Arguments.

(* ================================================================= *)
(** * JavaScript strings *)

(** A string is the list of its UTF-16 code units. *)
Definition jsstring : Type := list N.

(** An ASCII literal as a JavaScript string. *)
Definition lit (s : string) : jsstring :=
  map N_of_ascii (list_ascii_of_string s).

(** The double quote, kept apart from the literals. *)
Definition dquote : jsstring := [34%N].

(** A line feed inside a template literal. *)
Definition nl : jsstring := [10%N].

Fixpoint jseqb (a b : jsstring) : bool :=
  match a, b with
  | [], [] => true
  | x :: a', y :: b' => N.eqb x y && jseqb a' b'
  | _, _ => false
  end.

(** Truthiness of [string | null | undefined]: only a non-empty string is
    truthy. *)
Definition truthy (o : option jsstring) : bool :=
  match o with
  | Some (_ :: _) => true
  | _ => false
  end.

(** [`${x}`] for a value that may be undefined. *)
Definition interp (o : option jsstring) : jsstring :=
  match o with
  | Some s => s
  | None => lit "undefined"
  end.

(** The granularity of an interval, the string union ["day" | "week" | "month"]. *)
Inductive IntervalType : Type := day | week | month.

Definition intervalTypeName (t : IntervalType) : jsstring :=
  match t with
  | day => lit "day"
  | week => lit "week"
  | month => lit "month"
  end.

Definition IntervalType_eqb (a b : IntervalType) : bool :=
  match a, b with
  | day, day | week, week | month, month => true
  | _, _ => false
  end.

(* ================================================================= *)
(** * The summarizer pipeline *)

Module Summarizer.

(** What a [throw] or a rejected promise carries, as a [catch] clause can
    see it: null, undefined, or a value on which reading [message] gives a
    string (an [Error] object) or undefined (a value without one). *)
Inductive JsError : Type :=
| ThrownNull
| ThrownUndefined
| ThrownValue (message : option jsstring).

(** An [Error] object with the given message. *)
Definition errorOf (message : jsstring) : JsError :=
  ThrownValue (Some message).

Definition isNullish (e : JsError) : bool :=
  match e with
  | ThrownNull | ThrownUndefined => true
  | ThrownValue _ => false
  end.

(** The [TypeError] of a property read on null or undefined. *)
Definition typeErrorReadingMessage (e : JsError) : JsError :=
  match e with
  | ThrownNull =>
      errorOf (lit "Cannot read properties of null (reading 'message')")
  | _ =>
      errorOf (lit "Cannot read properties of undefined (reading 'message')")
  end.

(** Completion of a call: a value, or a thrown error. *)
Inductive res (A : Type) : Type :=
| Ok (a : A)
| Throw (e : JsError).
Arguments Ok {A} a.
Arguments Throw {A} e.

(** [(error as Error).message]: the cast does nothing at run time, and the
    read throws on null and on undefined. *)
Definition readMessage (error : JsError) : res (option jsstring) :=
  match error with
  | ThrownValue message => Ok message
  | _ => Throw (typeErrorReadingMessage error)
  end.

Definition threw {A : Type} (r : res A) : bool :=
  match r with Ok _ => false | Throw _ => true end.

Record DateRange : Type := { startDate : jsstring; endDate : jsstring }.

Record TimeInterval (Date : Type) : Type := {
  intervalType : IntervalType;
  intervalStart : Date;
  intervalEnd : Date
}.

(** [aiSummaryConfig]: the [enabled] flag and whatever else the summarizer
    reads. *)
Record AISummaryConfig (Settings : Type) : Type := {
  enabled : bool;
  settings : Settings
}.

Record EnabledIntervals : Type := {
  ei_day : bool;
  ei_week : bool;
  ei_month : bool
}.

(** A logger is the list of child scopes it was derived with. *)
Definition Logger : Type := list jsstring.

Definition child (name : jsstring) (l : Logger) : Logger := l ++ [name].

Record SummarizerPipelineContext (Settings : Type) : Type := {
  logger : option Logger;
  aiSummaryConfig : AISummaryConfig Settings;
  overwrite : bool;
  outputDir : option jsstring;
  enabledIntervals : EnabledIntervals
}.

(** What the worker hands back: [null], [undefined] or the summary text. *)
Inductive Returned : Type :=
| RNull
| RUndefined
| RSummary (s : jsstring).

(** [isNotNullOrUndefined] of [@/lib/typeHelpers]. *)
Definition isNotNullOrUndefined (r : Returned) : bool :=
  match r with
  | RSummary _ => true
  | _ => false
  end.

Inductive LogLevel : Type := Debug | Info | Error.

Section Worker.

Variables Date Metrics Settings W : Type.

(** Everything observable the worker does, in order, with what came back. *)
Inductive Event : Type :=
| Logged (level : LogLevel) (scope : Logger) (msg : jsstring)
    (data : list (jsstring * option jsstring))
| CalledExistsSync (path : jsstring) (answer : bool)
| CalledGetRepoMetrics (repository : jsstring) (range : DateRange)
    (outcome : res Metrics)
| CalledGenerateRepoSummary (metrics : Metrics)
    (config : AISummaryConfig Settings) (range : DateRange)
    (ty : IntervalType) (outcome : res (option jsstring))
| CalledStoreRepoSummary (repoId date summary : jsstring)
    (ty : IntervalType) (outcome : res unit)
| CalledWriteToFile (path content : jsstring) (outcome : res unit).

Definition isLog (e : Event) : bool :=
  match e with Logged _ _ _ _ => true | _ => false end.

Definition isExistsCheck (e : Event) : bool :=
  match e with CalledExistsSync _ _ => true | _ => false end.

Definition isMetricsFetch (e : Event) : bool :=
  match e with CalledGetRepoMetrics _ _ _ => true | _ => false end.

Definition isSummarizerCall (e : Event) : bool :=
  match e with CalledGenerateRepoSummary _ _ _ _ _ => true | _ => false end.

Definition isPersistence (e : Event) : bool :=
  match e with CalledStoreRepoSummary _ _ _ _ _ => true | _ => false end.

Definition isFileWrite (e : Event) : bool :=
  match e with CalledWriteToFile _ _ _ => true | _ => false end.

(** The imported collaborators.  [W] is the world they act on (database,
    file system, the AI service); the pure helpers may throw. *)
Record Collaborators : Type := {
  toDateString : Date -> res jsstring;
  getRepoFilePath :
    option jsstring -> jsstring -> jsstring -> IntervalType -> jsstring ->
    res jsstring;
  existsSync : jsstring -> W -> bool;
  getRepoMetrics : jsstring -> DateRange -> W -> res Metrics * W;
  generateRepoSummary :
    Metrics -> AISummaryConfig Settings -> DateRange -> IntervalType -> W ->
    res (option jsstring) * W;
  storeRepoSummary :
    jsstring -> jsstring -> jsstring -> IntervalType -> W -> res unit * W;
  writeToFile : jsstring -> jsstring -> W -> res unit * W
}.

Variable env : Collaborators.

(** ** The monad of an async function body

    A computation transforms the world, appends to the trace of events and
    completes normally or by throwing. *)
Definition Step (A : Type) : Type := W -> res A * W * list Event.

Definition ret {A : Type} (a : A) : Step A := fun w => (Ok a, w, []).

Definition bind {A B : Type} (m : Step A) (k : A -> Step B) : Step B :=
  fun w =>
    match m w with
    | (Ok a, w1, t1) =>
        match k a w1 with
        | (r, w2, t2) => (r, w2, t1 ++ t2)
        end
    | (Throw e, w1, t1) => (Throw e, w1, t1)
    end.

(** [try { m } catch (error) { h error }] *)
Definition tryCatch {A : Type} (m : Step A) (h : JsError -> Step A) : Step A :=
  fun w =>
    match m w with
    | (Ok a, w1, t1) => (Ok a, w1, t1)
    | (Throw e, w1, t1) =>
        match h e w1 with
        | (r, w2, t2) => (r, w2, t1 ++ t2)
        end
    end.

(** A pure helper that may throw. *)
Definition lift {A : Type} (r : res A) : Step A := fun w => (r, w, []).

(** One awaited call of an effectful collaborator, recorded in the trace. *)
Definition call {A : Type} (f : W -> res A * W) (ev : res A -> Event) : Step A :=
  fun w => match f w with (r, w1) => (r, w1, [ev r]) end.

Notation "x <- m ;; k" := (bind m (fun x => k))
  (at level 100, m at next level, right associativity).
Notation "m ;;; k" := (bind m (fun _ => k))
  (at level 100, right associativity).

(** [l?.debug(msg)], [l?.info(msg, data)], [l?.error(msg, data)]: nothing
    happens without a logger. *)
Definition logTo (l : option Logger) (level : LogLevel) (msg : jsstring)
    (data : list (jsstring * option jsstring)) : Step unit :=
  fun w =>
    match l with
    | Some scope => (Ok tt, w, [Logged level scope msg data])
    | None => (Ok tt, w, [])
    end.

Definition awaitExistsSync (path : jsstring) : Step bool :=
  fun w => (Ok (existsSync env path w), w,
            [CalledExistsSync path (existsSync env path w)]).

Definition awaitGetRepoMetrics (repository : jsstring) (range : DateRange)
    : Step Metrics :=
  call (getRepoMetrics env repository range)
       (CalledGetRepoMetrics repository range).

Definition awaitGenerateRepoSummary (metrics : Metrics)
    (config : AISummaryConfig Settings) (range : DateRange)
    (ty : IntervalType) : Step (option jsstring) :=
  call (generateRepoSummary env metrics config range ty)
       (CalledGenerateRepoSummary metrics config range ty).

Definition awaitStoreRepoSummary (repoId date summary : jsstring)
    (ty : IntervalType) : Step unit :=
  call (storeRepoSummary env repoId date summary ty)
       (CalledStoreRepoSummary repoId date summary ty).

Definition awaitWriteToFile (path content : jsstring) : Step unit :=
  call (writeToFile env path content) (CalledWriteToFile path content).

(** ** [checkExistingSummary] *)
Definition checkExistingSummary (repoId date : jsstring)
    (ty : IntervalType) (outDir : option jsstring) : Step bool :=
  if negb (truthy outDir) then ret false
  else
    let filename := date ++ lit ".md" in
    summaryPath <-
      lift (getRepoFilePath env outDir repoId (lit "summaries") ty filename) ;;
    awaitExistsSync summaryPath.

(** ** [generateRepoSummaryForInterval] *)

Definition msgDisabled (ty : IntervalType) (repoId : jsstring) : jsstring :=
  lit "AI summary generation is disabled, skipping " ++ intervalTypeName ty
    ++ lit " summary for " ++ repoId.

Definition msgExists (ty : IntervalType) (repoId date : jsstring) : jsstring :=
  intervalTypeName ty ++ lit " summary already exists for " ++ repoId
    ++ lit " on " ++ date ++ lit ", skipping generation".

Definition msgNoActivity (repoId date : jsstring) : jsstring :=
  lit "No activity for repo " ++ repoId ++ lit " on " ++ date
    ++ lit ", skipping summary generation".

Definition msgExported (ty : IntervalType) (repoId : jsstring) : jsstring :=
  lit "Generated and exported " ++ intervalTypeName ty
    ++ lit " summary for repo " ++ repoId.

Definition msgError (repoId : jsstring) : jsstring :=
  lit "Error processing repository " ++ repoId.

(** The block under [try]. *)
Definition tryBlock (interval : TimeInterval Date) (repoId : jsstring)
    (context : SummarizerPipelineContext Settings)
    (intervalLogger : option Logger) (dateRange : DateRange)
    : Step Returned :=
  let ty := intervalType interval in
  summaryExists <-
    (if negb (overwrite context)
     then checkExistingSummary repoId (startDate dateRange) ty
            (outputDir context)
     else ret false) ;;
  if summaryExists then
    logTo intervalLogger Debug (msgExists ty repoId (startDate dateRange)) [] ;;;
    ret RUndefined
  else
    metrics <- awaitGetRepoMetrics repoId dateRange ;;
    summary <-
      awaitGenerateRepoSummary metrics (aiSummaryConfig context) dateRange ty ;;
    match summary with
    | Some (c :: s) =>
        let text := c :: s in
        date <- lift (toDateString env (intervalStart interval)) ;;
        awaitStoreRepoSummary repoId date text ty ;;;
        date' <- lift (toDateString env (intervalStart interval)) ;;
        let filename := date' ++ lit ".md" in
        outputPath <-
          lift (getRepoFilePath env (outputDir context) repoId
                  (lit "summaries") ty filename) ;;
        awaitWriteToFile outputPath text ;;;
        logTo intervalLogger Info (msgExported ty repoId)
          [(lit "outputPath", Some outputPath)] ;;;
        ret (RSummary text)
    | _ =>
        logTo intervalLogger Debug
          (msgNoActivity repoId (startDate dateRange)) [] ;;;
        ret RUndefined
    end.

(** The [catch] clause.  Without a logger the optional call evaluates
    nothing, its arguments included; with one, [message] is read off the
    caught value first. *)
Definition catchBlock (repoId : jsstring) (intervalLogger : option Logger)
    (error : JsError) : Step Returned :=
  match intervalLogger with
  | None => ret RUndefined
  | Some scope =>
      message <- lift (readMessage error) ;;
      logTo (Some scope) Error (msgError repoId)
        [(lit "error", message)] ;;;
      ret RUndefined
  end.

(** [logger?.child(interval.intervalType).child(toDateString(...))]: the
    argument is only evaluated when there is a logger. *)
Definition deriveIntervalLogger (l : option Logger)
    (interval : TimeInterval Date) : Step (option Logger) :=
  match l with
  | None => ret None
  | Some scope =>
      d <- lift (toDateString env (intervalStart interval)) ;;
      ret (Some (child d (child (intervalTypeName (intervalType interval)) scope)))
  end.

Definition generateRepoSummaryForInterval
    (input : TimeInterval Date * jsstring)
    (context : SummarizerPipelineContext Settings) : Step Returned :=
  let (interval, repoId) := input in
  if negb (enabled (aiSummaryConfig context)) then
    logTo (logger context) Debug
      (msgDisabled (intervalType interval) repoId) [] ;;;
    ret RNull
  else
    intervalLogger <- deriveIntervalLogger (logger context) interval ;;
    start <- lift (toDateString env (intervalStart interval)) ;;
    stop <- lift (toDateString env (intervalEnd interval)) ;;
    let dateRange := {| startDate := start; endDate := stop |} in
    tryCatch (tryBlock interval repoId context intervalLogger dateRange)
             (catchBlock repoId intervalLogger).

(** ** The granularity gates

    The second stage of each of the three pipes. *)
Definition monthlyGate {A : Type} (input : list A)
    (context : SummarizerPipelineContext Settings) : list A :=
  if ei_month (enabledIntervals context) then input else [].

Definition weeklyGate {A : Type} (input : list A)
    (context : SummarizerPipelineContext Settings) : list A :=
  if ei_week (enabledIntervals context) then input else [].

Definition dailyGate {A : Type} (input : list A)
    (context : SummarizerPipelineContext Settings) : list A :=
  if ei_day (enabledIntervals context) then input else [].

(** The last stage, ["Filter null results"]. *)
Definition filterNullResults (results : list Returned) : list Returned :=
  filter isNotNullOrUndefined results.

(** Modelled from the spec: [mapStep] of [../types] is not among the
    sources.  The spec has the mapped step process the intervals
    independently, in no required order; here the inputs are taken from left
    to right and the first throw of the mapped step ends the batch. *)
Fixpoint mapStep {A B : Type} (step : A -> Step B) (inputs : list A)
    : Step (list B) :=
  match inputs with
  | [] => ret []
  | x :: rest =>
      y <- step x ;;
      ys <- mapStep step rest ;;
      ret (y :: ys)
  end.

(** [generateTimeIntervals] of [../generateTimeIntervals] is the first stage
    of each pipe. *)
Variable PipelineInput : Type.
Variable generateTimeIntervals :
  IntervalType -> PipelineInput -> Step (list (TimeInterval Date * jsstring)).

Definition generateMonthlyRepoSummaries (input : PipelineInput)
    (context : SummarizerPipelineContext Settings) : Step (list Returned) :=
  intervals <- generateTimeIntervals month input ;;
  results <-
    mapStep (fun i => generateRepoSummaryForInterval i context)
      (monthlyGate intervals context) ;;
  ret (filterNullResults results).

Definition generateWeeklyRepoSummaries (input : PipelineInput)
    (context : SummarizerPipelineContext Settings) : Step (list Returned) :=
  intervals <- generateTimeIntervals week input ;;
  results <-
    mapStep (fun i => generateRepoSummaryForInterval i context)
      (weeklyGate intervals context) ;;
  ret (filterNullResults results).

Definition generateDailyRepoSummaries (input : PipelineInput)
    (context : SummarizerPipelineContext Settings) : Step (list Returned) :=
  intervals <- generateTimeIntervals day input ;;
  results <-
    mapStep (fun i => generateRepoSummaryForInterval i context)
      (dailyGate intervals context) ;;
  ret (filterNullResults results).

End Worker.

Arguments Logged {Metrics Settings}.
Arguments CalledExistsSync {Metrics Settings}.
Arguments CalledGetRepoMetrics {Metrics Settings}.
Arguments CalledGenerateRepoSummary {Metrics Settings}.
Arguments CalledStoreRepoSummary {Metrics Settings}.
Arguments CalledWriteToFile {Metrics Settings}.

(** The error a recorded call threw, if it threw. *)
Definition thrownBy {Metrics Settings : Type} (e : Event Metrics Settings)
    : option JsError :=
  match e with
  | CalledGetRepoMetrics _ _ (Throw err) => Some err
  | CalledGenerateRepoSummary _ _ _ _ (Throw err) => Some err
  | CalledStoreRepoSummary _ _ _ _ (Throw err) => Some err
  | CalledWriteToFile _ _ (Throw err) => Some err
  | _ => None
  end.

(** The place of a call in the worker's sequence; log lines have none. *)
Definition callRank {Metrics Settings : Type} (e : Event Metrics Settings)
    : nat :=
  match e with
  | Logged _ _ _ _ => 0
  | CalledExistsSync _ _ => 1
  | CalledGetRepoMetrics _ _ _ => 2
  | CalledGenerateRepoSummary _ _ _ _ _ => 3
  | CalledStoreRepoSummary _ _ _ _ _ => 4
  | CalledWriteToFile _ _ _ => 5
  end.

(** The calls of a trace, log lines left out. *)
Definition callsOf {Metrics Settings : Type}
    (t : list (Event Metrics Settings)) : list (Event Metrics Settings) :=
  filter (fun e => negb (isLog e)) t.

(** The three components of a finished run. *)
Definition outcomeOf {A W E : Type} (r : res A * W * list E) : res A :=
  fst (fst r).

Definition worldOf {A W E : Type} (r : res A * W * list E) : W :=
  snd (fst r).

Definition traceOf {A W E : Type} (r : res A * W * list E) : list E :=
  snd r.

(** The collaborators throw nothing but values with a [message] to read:
    neither null nor undefined. *)
Definition ThrowsNoNullish {Date Metrics Settings W : Type}
    (env : Collaborators Date Metrics Settings W) : Prop :=
  (forall d e, toDateString env d = Throw e -> isNullish e = false)
  /\ (forall dir r c ty f e,
         getRepoFilePath env dir r c ty f = Throw e -> isNullish e = false)
  /\ (forall r range w e w',
         getRepoMetrics env r range w = (Throw e, w') -> isNullish e = false)
  /\ (forall m cfg range ty w e w',
         generateRepoSummary env m cfg range ty w = (Throw e, w') ->
         isNullish e = false)
  /\ (forall r d s ty w e w',
         storeRepoSummary env r d s ty w = (Throw e, w') ->
         isNullish e = false)
  /\ (forall path content w e w',
         writeToFile env path content w = (Throw e, w') ->
         isNullish e = false).

(** The logger derived for the interval, once the start date is formatted. *)
Definition intervalLoggerOf {Date Settings : Type}
    (ctx : SummarizerPipelineContext Settings)
    (interval : TimeInterval Date) (start : jsstring) : option Logger :=
  match logger ctx with
  | Some scope =>
      Some (child start (child (intervalTypeName (intervalType interval)) scope))
  | None => None
  end.


(** ** A concrete world, to run the worker on

    Dates are their ISO day strings ([None] is an invalid [Date], on which
    [toISOString] throws); the file system is the list of its files, the
    database the list of stored rows; a repository has activity when its
    metric is positive, and the summarizer answers with a fixed text. *)
Module Demo.

Record World : Type := {
  files : list (jsstring * jsstring);
  rows : list (jsstring * jsstring * IntervalType * jsstring);
  activity : nat;
  serviceUp : bool
}.

Definition demo_toDateString (d : option jsstring) : res jsstring :=
  match d with
  | Some s => Ok s
  | None => Throw (errorOf (lit "Invalid time value"))
  end.

Definition demo_getRepoFilePath (outDir : option jsstring)
    (repoId category : jsstring) (ty : IntervalType) (file : jsstring)
    : res jsstring :=
  match outDir with
  | Some d =>
      Ok (d ++ lit "/" ++ repoId ++ lit "/" ++ category ++ lit "/"
            ++ intervalTypeName ty ++ lit "/" ++ file)
  | None => Throw (errorOf (lit "The path argument must be of type string"))
  end.

Definition demo_existsSync (path : jsstring) (w : World) : bool :=
  existsb (fun f => jseqb (fst f) path) (files w).

Definition demo_getRepoMetrics (repo : jsstring) (range : DateRange)
    (w : World) : res nat * World :=
  (Ok (activity w), w).

Definition demo_generateRepoSummary (metrics : nat)
    (config : AISummaryConfig unit) (range : DateRange) (ty : IntervalType)
    (w : World) : res (option jsstring) * World :=
  if serviceUp w then
    (Ok (if Nat.eqb metrics 0 then None else Some (lit "Great progress")), w)
  else (Throw (errorOf (lit "service unavailable")), w).

Definition demo_storeRepoSummary (repoId date summary : jsstring)
    (ty : IntervalType) (w : World) : res unit * World :=
  (Ok tt,
   {| files := files w;
      rows := (repoId, date, ty, summary) :: rows w;
      activity := activity w;
      serviceUp := serviceUp w |}).

Definition demo_writeToFile (path content : jsstring) (w : World)
    : res unit * World :=
  (Ok tt,
   {| files := (path, content) :: files w;
      rows := rows w;
      activity := activity w;
      serviceUp := serviceUp w |}).

Definition collaborators : Collaborators (option jsstring) nat unit World :=
  {| toDateString := demo_toDateString;
     getRepoFilePath := demo_getRepoFilePath;
     existsSync := demo_existsSync;
     getRepoMetrics := demo_getRepoMetrics;
     generateRepoSummary := demo_generateRepoSummary;
     storeRepoSummary := demo_storeRepoSummary;
     writeToFile := demo_writeToFile |}.

(** The same world behind a metrics query that rejects with null. *)
Definition rejectingWithNull : Collaborators (option jsstring) nat unit World :=
  {| toDateString := demo_toDateString;
     getRepoFilePath := demo_getRepoFilePath;
     existsSync := demo_existsSync;
     getRepoMetrics := fun _ _ w => (Throw ThrownNull, w);
     generateRepoSummary := demo_generateRepoSummary;
     storeRepoSummary := demo_storeRepoSummary;
     writeToFile := demo_writeToFile |}.

Definition r1 : jsstring := lit "r1".

Definition jan1 : TimeInterval (option jsstring) :=
  {| intervalType := day;
     intervalStart := Some (lit "2024-01-01");
     intervalEnd := Some (lit "2024-01-02") |}.

Definition jan1Path : jsstring := lit "out/r1/summaries/day/2024-01-01.md".

Definition context (on over : bool) (dir : option jsstring)
    : SummarizerPipelineContext unit :=
  {| logger := Some [];
     aiSummaryConfig := {| enabled := on; settings := tt |};
     overwrite := over;
     outputDir := dir;
     enabledIntervals := {| ei_day := true; ei_week := true; ei_month := true |} |}.


(** Nothing on disk, nothing stored, an active repository. *)
Definition fresh : World :=
  {| files := []; rows := []; activity := 3; serviceUp := true |}.

(** The world after a first run exported the summary of January 1st. *)
Definition exported : World :=
  {| files := [(jan1Path, lit "Great progress")];
     rows := [(r1, lit "2024-01-01", day, lit "Great progress")];
     activity := 3;
     serviceUp := true |}.

(** The AI service is down. *)
Definition outage : World :=
  {| files := []; rows := []; activity := 3; serviceUp := false |}.

(** No activity in the interval. *)
Definition quiet : World :=
  {| files := []; rows := []; activity := 0; serviceUp := true |}.

End Demo.

End Summarizer.

(* ================================================================= *)
(** * The RSS route handlers *)

(** What the two route files share word for word: [escapeXml],
    [stripMarkdown], and the query on [overallSummaries]. *)
Module Rss.

(** ** Regular expressions with the [g] flag *)

(** LineTerminator: LF, CR, LS, PS. *)
Definition isLineTerminator (c : N) : bool :=
  N.eqb c 10 || N.eqb c 13 || N.eqb c 8232 || N.eqb c 8233.

(** The class [\s], which is also what [trim] strips: WhiteSpace and
    LineTerminator. *)
Definition isSpaceClass (c : N) : bool :=
  N.eqb c 9 || N.eqb c 11 || N.eqb c 12 || N.eqb c 32 || N.eqb c 160
  || N.eqb c 5760 || (N.leb 8192 c && N.leb c 8202) || N.eqb c 8239
  || N.eqb c 8287 || N.eqb c 12288 || N.eqb c 65279 || isLineTerminator c.

(** A pattern is tried at a position: it sees the code unit before the
    position (for [^]) and the input from the position on, and answers with
    the replacement text and the number of code units matched. *)
Definition Pattern : Type := option N -> jsstring -> option (jsstring * nat).

(** [text.replace(/pattern/g, replacement)]: leftmost matches, from left to
    right, none overlapping; [skip] counts the code units of the current
    match still to be passed over. *)
Fixpoint replaceFrom (p : Pattern) (skip : nat) (prev : option N)
    (s : jsstring) : jsstring :=
  match s with
  | [] => []
  | c :: rest =>
      match skip with
      | S k => replaceFrom p k (Some c) rest
      | O =>
          match p prev s with
          | Some (replacement, S k) =>
              replacement ++ replaceFrom p k (Some c) rest
          | _ => c :: replaceFrom p 0 (Some c) rest
          end
      end
  end.

Definition replaceAll (p : Pattern) (s : jsstring) : jsstring :=
  replaceFrom p 0 None s.

(** A pattern of one literal character. *)
Definition charPat (c : N) (replacement : jsstring) : Pattern :=
  fun _ s =>
    match s with
    | x :: _ => if N.eqb x c then Some (replacement, 1) else None
    | [] => None
    end.

(** ** [escapeXml] *)
Definition escapeXml (text : jsstring) : jsstring :=
  replaceAll (charPat 39 (lit "&apos;"))
    (replaceAll (charPat 34 (lit "&quot;"))
       (replaceAll (charPat 62 (lit "&gt;"))
          (replaceAll (charPat 60 (lit "&lt;"))
             (replaceAll (charPat 38 (lit "&amp;")) text)))).

(** ** [stripMarkdown] *)

(** The longest prefix free of [c], and what follows it: [[^c]*]. *)
Fixpoint spanNot (c : N) (s : jsstring) : jsstring * jsstring :=
  match s with
  | [] => ([], [])
  | x :: rest =>
      if N.eqb x c then ([], s)
      else match spanNot c rest with (a, b) => (x :: a, b) end
  end.

(** [k] hash signs and then a [\s]. *)
Definition headerAt (s : jsstring) (k : nat) : bool :=
  Nat.eqb (List.length (firstn k s)) k
  && forallb (N.eqb 35) (firstn k s)
  && match nth_error s k with
     | Some c => isSpaceClass c
     | None => false
     end.

(** [/#{1,6}\s/]: greedy, so the longest run of hashes is tried first. *)
Definition headerPat : Pattern :=
  fun _ s =>
    match find (headerAt s) [6; 5; 4; 3; 2; 1]%nat with
    | Some k => Some ([], S k)
    | None => None
    end.

(** [/\*\*([^*]+)\*\*/] with ["$1"]. *)
Definition boldPat : Pattern :=
  fun _ s =>
    match s with
    | 42%N :: 42%N :: rest =>
        match spanNot 42 rest with
        | (b :: body, 42%N :: 42%N :: _) =>
            Some (b :: body, (2 + List.length (b :: body) + 2)%nat)
        | _ => None
        end
    | _ => None
    end.

(** [/\*([^*]+)\*/] and [/`([^`]+)`/] with ["$1"]: a delimiter, a
    non-empty run without it, the delimiter. *)
Definition fencedPat (d : N) : Pattern :=
  fun _ s =>
    match s with
    | x :: rest =>
        if N.eqb x d then
          match spanNot d rest with
          | (b :: body, _ :: _) =>
              Some (b :: body, (1 + List.length (b :: body) + 1)%nat)
          | _ => None
          end
        else None
    | [] => None
    end.

Definition italicPat : Pattern := fencedPat 42.

Definition codePat : Pattern := fencedPat 96.

(** [/\[([^\]]+)\]\([^)]+\)/] with ["$1"]. *)
Definition linkPat : Pattern :=
  fun _ s =>
    match s with
    | 91%N :: rest =>
        match spanNot 93 rest with
        | (b :: label, 93%N :: 40%N :: rest') =>
            match spanNot 41 rest' with
            | (u :: url, 41%N :: _) =>
                Some (b :: label,
                      (1 + List.length (b :: label) + 2
                       + List.length (u :: url) + 1)%nat)
            | _ => None
            end
        | _ => None
        end
    | _ => None
    end.

(** The replacement of the list-item rule, as the source file spells it:
    U+00E2, U+20AC, U+00A2 and a space. *)
Definition bulletText : jsstring := [226; 8364; 162; 32]%N.

(** [/^[-*+]\s/] with the [m] flag: [^] holds at the start of the input and
    after a line terminator. *)
Definition atLineStart (prev : option N) : bool :=
  match prev with
  | Some p => isLineTerminator p
  | None => true
  end.

Definition listPat : Pattern :=
  fun prev s =>
    match s with
    | c :: d :: _ =>
        if atLineStart prev
           && (N.eqb c 45 || N.eqb c 42 || N.eqb c 43)
           && isSpaceClass d
        then Some (bulletText, 2%nat)
        else None
    | _ => None
    end.

Fixpoint trimStart (s : jsstring) : jsstring :=
  match s with
  | c :: rest => if isSpaceClass c then trimStart rest else s
  | [] => []
  end.

Definition trimEnd (s : jsstring) : jsstring := rev (trimStart (rev s)).

Definition trim (s : jsstring) : jsstring := trimEnd (trimStart s).

Definition stripMarkdown (text : jsstring) : jsstring :=
  trim
    (replaceAll listPat
       (replaceAll linkPat
          (replaceAll codePat
             (replaceAll italicPat
                (replaceAll boldPat
                   (replaceAll headerPat text)))))).

(** ** The table [overallSummaries] and the query on it *)

Record OverallSummary : Type := {
  date : jsstring;
  intervalType : IntervalType;
  summary : option jsstring
}.

(** Text comparison of the [date] column, code unit by code unit. *)
Fixpoint jscompare (a b : jsstring) : comparison :=
  match a, b with
  | [], [] => Eq
  | [], _ :: _ => Lt
  | _ :: _, [] => Gt
  | x :: a', y :: b' =>
      match N.compare x y with
      | Eq => jscompare a' b'
      | c => c
      end
  end.

(** [a <= b] on dates. *)
Definition dateLeb (a b : jsstring) : bool :=
  match jscompare a b with
  | Gt => false
  | _ => true
  end.

(** [orderBy(desc(overallSummaries.date))]: the rows by descending date;
    rows of one date keep the order of the table. *)
Fixpoint insertDesc (r : OverallSummary) (l : list OverallSummary)
    : list OverallSummary :=
  match l with
  | [] => [r]
  | x :: rest =>
      if dateLeb (date x) (date r) then r :: l
      else x :: insertDesc r rest
  end.

Definition orderByDateDesc (l : list OverallSummary) : list OverallSummary :=
  fold_right insertDesc [] l.

(** [db.select().from(overallSummaries).where(eq(intervalType, ty))
       .orderBy(desc(date)).limit(k)] *)
Definition selectRecent (ty : IntervalType) (k : nat)
    (db : list OverallSummary) : list OverallSummary :=
  firstn k
    (orderByDateDesc
       (filter (fun r => IntervalType_eqb (intervalType r) ty) db)).

(** The entity the spec names for a character: the five of XML, and the
    character itself otherwise.  [escapeXml] is compared with it. *)
Definition escapeChar (c : N) : jsstring :=
  if N.eqb c 38 then lit "&amp;"
  else if N.eqb c 60 then lit "&lt;"
  else if N.eqb c 62 then lit "&gt;"
  else if N.eqb c 34 then lit "&quot;"
  else if N.eqb c 39 then lit "&apos;"
  else [c].

(** A character no inline rule of [stripMarkdown] starts on and that ends
    no line: not [#], [*], a backtick or an opening bracket, and no line
    terminator. *)
Definition isInlinePlain (c : N) : bool :=
  negb (N.eqb c 35 || N.eqb c 42 || N.eqb c 96 || N.eqb c 91)
  && negb (isLineTerminator c).

(** The text does not open with a list marker followed by white space. *)
Definition opensWithoutListMarker (s : jsstring) : bool :=
  match s with
  | c :: d :: _ =>
      negb ((N.eqb c 45 || N.eqb c 42 || N.eqb c 43) && isSpaceClass d)
  | _ => true
  end.

(** The five characters [escapeXml] replaces. *)
Definition isXmlSpecial (c : N) : bool :=
  N.eqb c 38 || N.eqb c 60 || N.eqb c 62 || N.eqb c 34 || N.eqb c 39.

(** The rows of one granularity. *)
Definition rowsOf (ty : IntervalType) (db : list OverallSummary)
    : list OverallSummary :=
  filter (fun r => IntervalType_eqb (intervalType r) ty) db.

(** [l] runs from the latest date to the earliest. *)
Definition Descending (l : list OverallSummary) : Prop :=
  StronglySorted (fun a b => dateLeb (date b) (date a) = true) l.

(** [sel] is the [k] most recent rows of granularity [ty] in [db], latest
    first: as many as there are up to [k], and no row left out is later
    than a row taken. *)
Definition MostRecent (ty : IntervalType) (k : nat)
    (db sel : list OverallSummary) : Prop :=
  List.length sel = Nat.min k (List.length (rowsOf ty db))
  /\ Descending sel
  /\ exists rest,
       Permutation (rowsOf ty db) (sel ++ rest)
       /\ forall r r', In r sel -> In r' rest ->
                       dateLeb (date r') (date r) = true.

Record Response : Type := {
  body : jsstring;
  headers : list (jsstring * jsstring)
}.

Definition responseHeaders : list (jsstring * jsstring) :=
  [(lit "Content-Type", lit "application/xml");
   (lit "Cache-Control", lit "public, max-age=3600")].

(** The [description] constant of an item. *)
Definition itemDescription (row : OverallSummary) (fallback : jsstring)
    : jsstring :=
  match summary row with
  | Some (c :: s) => firstn 500 (stripMarkdown (c :: s))
  | _ => fallback
  end.

(** What stands between [<description>] and [</description>]. *)
Definition descriptionText (description : jsstring) : jsstring :=
  escapeXml description
    ++ (if Nat.leb 500 (List.length description) then lit "..." else []).

Section Route.

(** [process.env.SITE_URL], [new Date(s).toUTCString()] and
    [new Date().toUTCString()] at the time of the request. *)
Variable siteUrl : option jsstring.
Variable utcString : jsstring -> jsstring.
Variable now : jsstring.

Definition title : jsstring := lit "Contributor Analytics".

(** The template of one item, shared by the two files up to the label and
    the granularity in the permalink. *)
Definition itemTemplate (titleText permalink pubDate description : jsstring)
    : jsstring :=
  nl ++ lit "    <item>" ++ nl
  ++ lit "      <title>" ++ titleText ++ lit "</title>" ++ nl
  ++ lit "      <link>" ++ permalink ++ lit "</link>" ++ nl
  ++ lit "      <guid isPermaLink=" ++ dquote ++ lit "true" ++ dquote
  ++ lit ">" ++ permalink ++ lit "</guid>" ++ nl
  ++ lit "      <pubDate>" ++ pubDate ++ lit "</pubDate>" ++ nl
  ++ lit "      <description>" ++ descriptionText description
  ++ lit "</description>" ++ nl
  ++ lit "    </item>".

(** The envelope around the joined items. *)
Definition rssDocument (items : jsstring) : jsstring :=
  lit "<?xml version=" ++ dquote ++ lit "1.0" ++ dquote ++ lit " encoding="
  ++ dquote ++ lit "UTF-8" ++ dquote ++ lit "?>" ++ nl
  ++ lit "<rss version=" ++ dquote ++ lit "2.0" ++ dquote
  ++ lit " xmlns:atom=" ++ dquote ++ lit "http://www.w3.org/2005/Atom"
  ++ dquote ++ lit ">" ++ nl
  ++ lit "  <channel>" ++ nl
  ++ lit "    <title>" ++ escapeXml title ++ lit "</title>" ++ nl
  ++ lit "    <link>" ++ interp siteUrl ++ lit "</link>" ++ nl
  ++ lit "    <description>Daily contributor activity summaries and analytics</description>"
  ++ nl
  ++ lit "    <language>en-us</language>" ++ nl
  ++ lit "    <lastBuildDate>" ++ now ++ lit "</lastBuildDate>" ++ nl
  ++ lit "    <atom:link href=" ++ dquote ++ interp siteUrl ++ lit "/rss.xml"
  ++ dquote ++ lit " rel=" ++ dquote ++ lit "self" ++ dquote ++ lit " type="
  ++ dquote ++ lit "application/rss+xml" ++ dquote ++ lit "/>" ++ nl
  ++ lit "    " ++ items ++ nl
  ++ lit "  </channel>" ++ nl
  ++ lit "</rss>".

(** *** The handler with the three granularities *)

Definition itemTitle (labelPrefix : jsstring) (row : OverallSummary)
    : jsstring :=
  labelPrefix ++ lit ": " ++ date row.

Definition formatItem (row : OverallSummary) (granularity labelPrefix : jsstring)
    : jsstring :=
  let description :=
    itemDescription row (labelPrefix ++ lit " contributor activity summary") in
  let permalink :=
    interp siteUrl ++ lit "/summary/" ++ granularity ++ lit "/" ++ date row in
  itemTemplate (itemTitle labelPrefix row) permalink (utcString (date row))
    description.

(** The array [items] before [join]. *)
Definition feedItems (db : list OverallSummary) : list jsstring :=
  let dailySummaries := selectRecent day 30 db in
  let weeklySummaries := selectRecent week 4 db in
  let monthlySummaries := selectRecent month 1 db in
  map (fun s => formatItem s (lit "month") (lit "Monthly Summary"))
    monthlySummaries
  ++ map (fun s => formatItem s (lit "week") (lit "Weekly Summary"))
       weeklySummaries
  ++ map (fun s => formatItem s (lit "day") (lit "Daily Summary"))
       dailySummaries.

Definition GET (db : list OverallSummary) : Response :=
  {| body := rssDocument (List.concat (feedItems db));
     headers := responseHeaders |}.

(** *** The handler of [src/app/rss.xml/route.ts], daily summaries only *)

Definition formatDailyItem (row : OverallSummary) : jsstring :=
  let description :=
    itemDescription row (lit "Daily contributor activity summary") in
  let permalink := interp siteUrl ++ lit "/summary/day/" ++ date row in
  itemTemplate (lit "Daily Summary: " ++ date row) permalink
    (utcString (date row)) description.

Definition dailyFeedItems (db : list OverallSummary) : list jsstring :=
  let summaries := selectRecent day 20 db in
  map formatDailyItem summaries.

Definition GET_daily (db : list OverallSummary) : Response :=
  {| body := rssDocument (List.concat (dailyFeedItems db));
     headers := responseHeaders |}.

End Route.

(** ** Sample tables *)

Definition twoDigits (n : nat) : jsstring :=
  [N.of_nat (48 + n / 10); N.of_nat (48 + n mod 10)].

Definition dailyRow (monthPrefix : jsstring) (n : nat) : OverallSummary :=
  {| date := monthPrefix ++ twoDigits n;
     intervalType := day;
     summary := Some (lit "Activity of the day") |}.

(** Thirty-five daily rows, 2024-01-01 to 2024-02-04, oldest first. *)
Definition thirtyFiveDays : list OverallSummary :=
  map (dailyRow (lit "2024-01-")) (seq 1 31)
  ++ map (dailyRow (lit "2024-02-")) (seq 1 4).

(** A row whose stripped summary is [n] letters long. *)
Definition rowOfLength (n : nat) : OverallSummary :=
  {| date := lit "2024-01-01";
     intervalType := day;
     summary := Some (repeat 97%N n) |}.

(** A row whose date column holds markup characters. *)
Definition markupRow : OverallSummary :=
  {| date := lit "<2024&01>";
     intervalType := day;
     summary := Some (lit "a < b") |}.

End Rss.

(* ================================================================= *)
(** * Properties of the summarizer pipeline *)

Module SummarizerSpec.

Import Summarizer.

Ltac unfold_worker :=
  unfold generateRepoSummaryForInterval, tryBlock, catchBlock,
    deriveIntervalLogger, checkExistingSummary, awaitExistsSync,
    awaitGetRepoMetrics, awaitGenerateRepoSummary, awaitStoreRepoSummary,
    awaitWriteToFile, tryCatch, bind, ret, lift, call, logTo,
    outcomeOf, worldOf, traceOf in *.

(** Follow the run through its innermost [match], using the equations at
    hand. *)
Ltac follow_step :=
  match goal with
  | H : ?x = _ |- context [match ?x with _ => _ end] => rewrite H
  | |- context [match ?x with _ => _ end] =>
      lazymatch x with
      | context [match _ with _ => _ end] => fail
      | _ => destruct x eqn:?
      end
  end.

Ltac follow := repeat (simpl in *; follow_step); simpl in *.

Section WorkerFacts.

Variables Date Metrics Settings W : Type.
Variable env : Collaborators Date Metrics Settings W.

Local Abbreviation worker := (generateRepoSummaryForInterval env).

(** C2: with AI summarization disabled the worker returns null, leaves the
    world as it was, and its trace holds nothing but the debug line: no
    existence check, no metrics fetch, no summarizer call, no persistence
    and no file write. *)
Theorem disabled_returns_null_without_effects :
  forall (interval : TimeInterval Date) (repoId : jsstring)
         (ctx : SummarizerPipelineContext Settings) (w : W),
    enabled (aiSummaryConfig ctx) = false ->
    outcomeOf (worker (interval, repoId) ctx w) = Ok RNull
    /\ worldOf (worker (interval, repoId) ctx w) = w
    /\ forallb (@isLog Metrics Settings) (traceOf (worker (interval, repoId) ctx w)) = true
    /\ existsb (@isMetricsFetch Metrics Settings) (traceOf (worker (interval, repoId) ctx w)) = false
    /\ existsb (@isPersistence Metrics Settings) (traceOf (worker (interval, repoId) ctx w)) = false
    /\ existsb (@isFileWrite Metrics Settings) (traceOf (worker (interval, repoId) ctx w)) = false.
Proof.
  intros interval repoId ctx w Hoff.
  unfold_worker. rewrite Hoff. simpl.
  destruct (logger ctx); simpl; repeat split; reflexivity.
Qed.

(** C1, amended: with AI summarization enabled, the overwrite flag false, a
    non-empty output directory and the export file present at the path
    derived from (outputDir, repoId, "summaries", intervalType, date.md),
    the worker returns undefined, leaves the world as it was and calls
    neither the metrics query, nor the summarizer, nor the persistence, nor
    the file writer. *)
Theorem existing_export_skips_generation :
  forall (interval : TimeInterval Date) (repoId : jsstring)
         (ctx : SummarizerPipelineContext Settings) (w : W)
         (dir start stop path : jsstring),
    enabled (aiSummaryConfig ctx) = true ->
    overwrite ctx = false ->
    outputDir ctx = Some dir ->
    dir <> [] ->
    toDateString env (intervalStart interval) = Ok start ->
    toDateString env (intervalEnd interval) = Ok stop ->
    getRepoFilePath env (Some dir) repoId (lit "summaries")
      (intervalType interval) (start ++ lit ".md") = Ok path ->
    existsSync env path w = true ->
    outcomeOf (worker (interval, repoId) ctx w) = Ok RUndefined
    /\ worldOf (worker (interval, repoId) ctx w) = w
    /\ existsb (@isMetricsFetch Metrics Settings) (traceOf (worker (interval, repoId) ctx w)) = false
    /\ existsb (@isSummarizerCall Metrics Settings) (traceOf (worker (interval, repoId) ctx w)) = false
    /\ existsb (@isPersistence Metrics Settings) (traceOf (worker (interval, repoId) ctx w)) = false
    /\ existsb (@isFileWrite Metrics Settings) (traceOf (worker (interval, repoId) ctx w)) = false.
Proof.
  intros interval repoId ctx w dir start stop path Hon Hover Hdir Hne Hs He Hp Hex.
  unfold_worker. rewrite Hon, Hover, Hdir, Hs, He. simpl.
  destruct dir as [|d dir']; [congruence|]. simpl.
  destruct (logger ctx); simpl; rewrite ?Hs; simpl; rewrite Hp; simpl;
    rewrite Hex; simpl; repeat split; reflexivity.
Qed.

(** Past its prologue the worker is the guarded block. *)
Lemma worker_is_guarded_block :
  forall (interval : TimeInterval Date) (repoId : jsstring)
         (ctx : SummarizerPipelineContext Settings) (w : W)
         (start stop : jsstring),
    enabled (aiSummaryConfig ctx) = true ->
    toDateString env (intervalStart interval) = Ok start ->
    toDateString env (intervalEnd interval) = Ok stop ->
    worker (interval, repoId) ctx w
    = tryCatch
        (tryBlock env interval repoId ctx (intervalLoggerOf ctx interval start)
           {| startDate := start; endDate := stop |})
        (@catchBlock Metrics Settings W repoId
           (intervalLoggerOf ctx interval start)) w.
Proof.
  intros interval repoId ctx w start stop Hon Hs He.
  unfold generateRepoSummaryForInterval, deriveIntervalLogger, intervalLoggerOf.
  rewrite Hon. simpl.
  destruct (logger ctx); unfold bind, lift, ret; rewrite ?Hs, ?He; simpl;
    destruct (tryCatch _ _ w) as [[r w1] t1]; reflexivity.
Qed.

(** What the [catch] clause does with a caught value. *)
Lemma catchBlock_run :
  forall (repoId : jsstring) (il : option Logger) (err : JsError) (w : W),
    @catchBlock Metrics Settings W repoId il err w
    = match il with
      | None => (Ok RUndefined, w, [])
      | Some scope =>
          match err with
          | ThrownValue message =>
              (Ok RUndefined, w,
               [Logged Error scope (msgError repoId)
                  [(lit "error", message)]])
          | _ => (Throw (typeErrorReadingMessage err), w, [])
          end
      end.
Proof.
  intros repoId il err w. destruct il as [scope|]; [|reflexivity].
  destruct err; reflexivity.
Qed.

(** Collaborators that throw no null and no undefined make the guarded
    block throw none. *)
Lemma tryBlock_throws_no_nullish :
  forall (interval : TimeInterval Date) (repoId : jsstring)
         (ctx : SummarizerPipelineContext Settings) (il : option Logger)
         (range : DateRange) (w : W) (err : JsError),
    ThrowsNoNullish env ->
    outcomeOf (tryBlock env interval repoId ctx il range w) = Throw err ->
    isNullish err = false.
Proof.
  intros interval repoId ctx il range w err
    [Hdate [Hpath [Hmetrics [Hsummarizer [Hstore Hwrite]]]]].
  unfold_worker. follow; intros Hthrow; try discriminate;
    inversion Hthrow; subst; eauto.
Qed.

(** The worker completes normally when the dates of the interval format
    and either the context has no logger or the collaborators throw no
    null and no undefined. *)
Lemma worker_returns :
  forall (interval : TimeInterval Date) (repoId : jsstring)
         (ctx : SummarizerPipelineContext Settings) (w : W),
    (enabled (aiSummaryConfig ctx) = true ->
     threw (toDateString env (intervalStart interval)) = false
     /\ threw (toDateString env (intervalEnd interval)) = false) ->
    logger ctx = None \/ ThrowsNoNullish env ->
    threw (outcomeOf (worker (interval, repoId) ctx w)) = false.
Proof.
  intros interval repoId ctx w Hdates Hsafe.
  destruct (enabled (aiSummaryConfig ctx)) eqn:Hon.
  - destruct Hdates as [Hs He]; [reflexivity|].
    destruct (toDateString env (intervalStart interval)) as [start|] eqn:Es;
      [|discriminate].
    destruct (toDateString env (intervalEnd interval)) as [stop|] eqn:Ee;
      [|discriminate].
    rewrite (worker_is_guarded_block interval repoId ctx w Hon Es Ee).
    unfold tryCatch.
    destruct (tryBlock env interval repoId ctx
                (intervalLoggerOf ctx interval start)
                {| startDate := start; endDate := stop |} w)
      as [[[v|err] w1] t1] eqn:Hblock; [reflexivity|].
    rewrite catchBlock_run.
    destruct Hsafe as [Hnone|Hsafe].
    + unfold intervalLoggerOf. rewrite Hnone. reflexivity.
    + assert (Herr : isNullish err = false).
      { eapply tryBlock_throws_no_nullish; [exact Hsafe|].
        rewrite Hblock. reflexivity. }
      destruct (intervalLoggerOf ctx interval start); [|reflexivity].
      destruct err; try discriminate. reflexivity.
  - unfold_worker. rewrite Hon. simpl. destruct (logger ctx); reflexivity.
Qed.



(** Split a membership in a concrete trace into its cases. *)
Ltac split_trace H :=
  repeat (rewrite in_app_iff in H; simpl in H);
  repeat match goal with
         | H' : _ \/ _ |- _ => destruct H'
         | H' : False |- _ => contradiction
         | H' : @eq (Event _ _) _ _ |- _ => inversion H'; clear H'; subst
         end.

(** C5: a run in which the summarizer answered null (or undefined) or the
    empty string returns undefined, and its trace holds no call of
    storeRepoSummary and no call of writeToFile. *)
Theorem empty_summary_not_persisted :
  forall (interval : TimeInterval Date) (repoId : jsstring)
         (ctx : SummarizerPipelineContext Settings) (w : W)
         (metrics : Metrics) (config : AISummaryConfig Settings)
         (range : DateRange) (ty : IntervalType) (answer : option jsstring),
    In (CalledGenerateRepoSummary metrics config range ty (Ok answer))
       (traceOf (worker (interval, repoId) ctx w)) ->
    truthy answer = false ->
    outcomeOf (worker (interval, repoId) ctx w) = Ok RUndefined
    /\ existsb (@isPersistence Metrics Settings)
         (traceOf (worker (interval, repoId) ctx w)) = false
    /\ existsb (@isFileWrite Metrics Settings)
         (traceOf (worker (interval, repoId) ctx w)) = false.
Proof.
  intros interval repoId ctx w metrics config range ty answer.
  unfold_worker. follow; intros Hin Hfalsy; split_trace Hin;
    simpl in *; try discriminate; repeat split; reflexivity.
Qed.


(** C6: each of the three gates hands its input on unchanged when the flag
    of its granularity is true and answers with the empty sequence when it
    is false, whatever the input. *)
Theorem granularity_gate :
  forall (A : Type) (input : list A)
         (ctx : SummarizerPipelineContext Settings),
    (ei_day (enabledIntervals ctx) = true -> dailyGate input ctx = input)
    /\ (ei_day (enabledIntervals ctx) = false -> dailyGate input ctx = [])
    /\ (ei_week (enabledIntervals ctx) = true -> weeklyGate input ctx = input)
    /\ (ei_week (enabledIntervals ctx) = false -> weeklyGate input ctx = [])
    /\ (ei_month (enabledIntervals ctx) = true -> monthlyGate input ctx = input)
    /\ (ei_month (enabledIntervals ctx) = false -> monthlyGate input ctx = []).
Proof.
  intros A input ctx. unfold dailyGate, weeklyGate, monthlyGate.
  repeat split; intros Hflag; rewrite Hflag; reflexivity.
Qed.

(** A closed gate keeps the worker from running at all: the daily pipe
    then does what its interval source does and answers with no result. *)
Lemma closed_gate_runs_no_worker :
  forall (PipelineInput : Type)
         (generateTimeIntervals :
            IntervalType -> PipelineInput ->
            Step Metrics Settings W (list (TimeInterval Date * jsstring)))
         (input : PipelineInput)
         (ctx : SummarizerPipelineContext Settings) (w w1 : W)
         (intervals : list (TimeInterval Date * jsstring))
         (t1 : list (Event Metrics Settings)),
    ei_day (enabledIntervals ctx) = false ->
    generateTimeIntervals day input w = (Ok intervals, w1, t1) ->
    generateDailyRepoSummaries env generateTimeIntervals input ctx w
    = (Ok [], w1, t1 ++ []).
Proof.
  intros PipelineInput generateTimeIntervals input ctx w w1 intervals t1
    Hflag Hsource.
  unfold generateDailyRepoSummaries, dailyGate, bind.
  rewrite Hsource, Hflag. reflexivity.
Qed.

(** [mapStep] completes normally when its step does on every input. *)
Lemma mapStep_returns :
  forall (A B : Type) (step : A -> Step Metrics Settings W B)
         (inputs : list A),
    (forall i w, In i inputs -> threw (outcomeOf (step i w)) = false) ->
    forall w, threw (outcomeOf (mapStep step inputs w)) = false.
Proof.
  intros A B step inputs. induction inputs as [|x rest IH]; intros Hstep w.
  - reflexivity.
  - cbn [mapStep]. unfold bind at 1.
    pose proof (Hstep x w (or_introl eq_refl)) as Hhead.
    destruct (step x w) as [[[v|e] w1] t1]; [|exact Hhead].
    assert (Hrest : forall i w', In i rest ->
                                 threw (outcomeOf (step i w')) = false).
    { intros i w' Hi. apply Hstep. right. exact Hi. }
    specialize (IH Hrest w1). unfold bind, ret.
    destruct (mapStep step rest w1) as [[[vs|e] w2] t2];
      [reflexivity|exact IH].
Qed.

(** With [mapStep] taking the inputs in turn, a batch whose intervals have
    dates that format is never aborted by its worker, when the context has
    no logger or the collaborators throw no null and no undefined. *)
Lemma batch_never_aborts :
  forall (ctx : SummarizerPipelineContext Settings)
         (inputs : list (TimeInterval Date * jsstring)) (w : W),
    (forall i, In i inputs ->
               threw (toDateString env (intervalStart (fst i))) = false
               /\ threw (toDateString env (intervalEnd (fst i))) = false) ->
    logger ctx = None \/ ThrowsNoNullish env ->
    threw (outcomeOf (mapStep (fun i => worker i ctx) inputs w)) = false.
Proof.
  intros ctx inputs w Hdates Hsafe. apply mapStep_returns.
  intros [interval repoId] w' Hi. apply worker_returns; [|exact Hsafe].
  intros _. exact (Hdates (interval, repoId) Hi).
Qed.

End WorkerFacts.

(** ** The worker on the concrete world *)

(** The end-to-end scenario: repository r1, daily granularity, nothing on
    disk, activity in the interval. *)
Example first_run_exports :
  generateRepoSummaryForInterval Demo.collaborators (Demo.jan1, Demo.r1)
    (Demo.context true false (Some (lit "out"))) Demo.fresh
  = (Ok (RSummary (lit "Great progress")), Demo.exported,
     [CalledExistsSync Demo.jan1Path false;
      CalledGetRepoMetrics Demo.r1
        {| startDate := lit "2024-01-01"; endDate := lit "2024-01-02" |}
        (Ok 3);
      CalledGenerateRepoSummary 3 {| enabled := true; settings := tt |}
        {| startDate := lit "2024-01-01"; endDate := lit "2024-01-02" |}
        day (Ok (Some (lit "Great progress")));
      CalledStoreRepoSummary Demo.r1 (lit "2024-01-01")
        (lit "Great progress") day (Ok tt);
      CalledWriteToFile Demo.jan1Path (lit "Great progress") (Ok tt);
      Logged Info [lit "day"; lit "2024-01-01"]
        (msgExported day Demo.r1) [(lit "outputPath", Some Demo.jan1Path)]]).
Proof. vm_compute. reflexivity. Qed.

Lemma disabled_returns_null_without_effects_witness :
  outcomeOf
    (generateRepoSummaryForInterval Demo.collaborators (Demo.jan1, Demo.r1)
       (Demo.context false true None) Demo.fresh)
  = Ok RNull.
Proof.
  apply (disabled_returns_null_without_effects Demo.collaborators Demo.jan1
           Demo.r1 (Demo.context false true None) Demo.fresh).
  reflexivity.
Defined.

(** C1 as stated fails: the overwrite flag is false and the export file of
    (r1, 2024-01-01, day) is on disk, yet with AI summarization disabled the
    worker returns null, not undefined. *)
Lemma skip_returns_null_when_disabled :
  overwrite (Demo.context false false (Some (lit "out"))) = false
  /\ getRepoFilePath Demo.collaborators
       (outputDir (Demo.context false false (Some (lit "out"))))
       Demo.r1 (lit "summaries") day (lit "2024-01-01" ++ lit ".md")
     = Ok Demo.jan1Path
  /\ existsSync Demo.collaborators Demo.jan1Path Demo.exported = true
  /\ outcomeOf
       (generateRepoSummaryForInterval Demo.collaborators
          (Demo.jan1, Demo.r1)
          (Demo.context false false (Some (lit "out"))) Demo.exported)
     = Ok RNull
  /\ outcomeOf
       (generateRepoSummaryForInterval Demo.collaborators
          (Demo.jan1, Demo.r1)
          (Demo.context false false (Some (lit "out"))) Demo.exported)
     <> Ok RUndefined.
Proof.
  repeat split; try (vm_compute; reflexivity).
  vm_compute. discriminate.
Qed.

(** An empty output directory counts as none: the file the export step
    wrote is on disk, and the enabled worker regenerates all the same. *)
Lemma empty_outputDir_regenerates :
  getRepoFilePath Demo.collaborators (Some []) Demo.r1 (lit "summaries") day
    (lit "2024-01-01" ++ lit ".md")
  = Ok (lit "/r1/summaries/day/2024-01-01.md")
  /\ existsb (@isPersistence nat unit)
       (traceOf
          (generateRepoSummaryForInterval Demo.collaborators
             (Demo.jan1, Demo.r1) (Demo.context true false (Some []))
             {| Demo.files :=
                  [(lit "/r1/summaries/day/2024-01-01.md",
                    lit "Great progress")];
                Demo.rows := [];
                Demo.activity := 3;
                Demo.serviceUp := true |}))
     = true.
Proof. split; vm_compute; reflexivity. Qed.

Lemma existing_export_skips_generation_witness :
  generateRepoSummaryForInterval Demo.collaborators (Demo.jan1, Demo.r1)
    (Demo.context true false (Some (lit "out"))) Demo.exported
  = (Ok RUndefined, Demo.exported,
     [CalledExistsSync Demo.jan1Path true;
      Logged Debug [lit "day"; lit "2024-01-01"]
        (msgExists day Demo.r1 (lit "2024-01-01")) []])
  /\ outcomeOf
       (generateRepoSummaryForInterval Demo.collaborators
          (Demo.jan1, Demo.r1)
          (Demo.context true false (Some (lit "out"))) Demo.exported)
     = Ok RUndefined.
Proof.
  split.
  - vm_compute. reflexivity.
  - apply (existing_export_skips_generation Demo.collaborators Demo.jan1
             Demo.r1 (Demo.context true false (Some (lit "out")))
             Demo.exported (dir := lit "out") (start := lit "2024-01-01")
             (stop := lit "2024-01-02") (path := Demo.jan1Path)).
    + reflexivity.
    + reflexivity.
    + reflexivity.
    + discriminate.
    + reflexivity.
    + reflexivity.
    + reflexivity.
    + reflexivity.
Defined.




(** Without an output directory the second run stores the summary again,
    then fails on the export path and returns undefined. *)
Example rerun_without_outputDir :
  map (@isPersistence nat unit)
    (traceOf
       (generateRepoSummaryForInterval Demo.collaborators
          (Demo.jan1, Demo.r1) (Demo.context true false None) Demo.exported))
  = [false; false; true; false]
  /\ outcomeOf
       (generateRepoSummaryForInterval Demo.collaborators
          (Demo.jan1, Demo.r1) (Demo.context true false None) Demo.exported)
     = Ok RUndefined.
Proof. split; vm_compute; reflexivity. Qed.

Lemma empty_summary_not_persisted_witness :
  outcomeOf
    (generateRepoSummaryForInterval Demo.collaborators (Demo.jan1, Demo.r1)
       (Demo.context true true (Some (lit "out"))) Demo.quiet)
  = Ok RUndefined.
Proof.
  apply (empty_summary_not_persisted Demo.collaborators Demo.jan1 Demo.r1
           (Demo.context true true (Some (lit "out"))) Demo.quiet
           0 {| enabled := true; settings := tt |}
           {| startDate := lit "2024-01-01"; endDate := lit "2024-01-02" |}
           day None).
  - vm_compute. right. left. reflexivity.
  - reflexivity.
Defined.

Lemma granularity_gate_witness :
  dailyGate [1; 2; 3]
    {| logger := None;
       aiSummaryConfig := {| enabled := true; settings := tt |};
       overwrite := false;
       outputDir := None;
       enabledIntervals :=
         {| ei_day := true; ei_week := false; ei_month := true |} |}
  = [1; 2; 3]
  /\ weeklyGate [1; 2; 3]
       {| logger := None;
          aiSummaryConfig := {| enabled := true; settings := tt |};
          overwrite := false;
          outputDir := None;
          enabledIntervals :=
            {| ei_day := true; ei_week := false; ei_month := true |} |}
     = [].
Proof.
  pose proof (granularity_gate [1; 2; 3]
                {| logger := None;
                   aiSummaryConfig := {| enabled := true; settings := tt |};
                   overwrite := false;
                   outputDir := None;
                   enabledIntervals :=
                     {| ei_day := true; ei_week := false;
                        ei_month := true |} |})
    as [Hday [_ [_ [Hweek _]]]].
  split; [apply Hday|apply Hweek]; reflexivity.
Defined.

End SummarizerSpec.

(* ================================================================= *)
(** * Properties of the RSS route handlers *)

Module RssSpec.

Import Rss.

(** ** The order on dates *)

Lemma jscompare_flip :
  forall a b : jsstring, jscompare b a = CompOpp (jscompare a b).
Proof.
  induction a as [|x a IH]; intros [|y b]; simpl; try reflexivity.
  rewrite (N.compare_antisym x y).
  destruct (N.compare x y); simpl; auto.
Qed.

Lemma dateLeb_total :
  forall a b : jsstring, dateLeb a b = false -> dateLeb b a = true.
Proof.
  intros a b. unfold dateLeb. rewrite (jscompare_flip a b).
  destruct (jscompare a b); simpl; congruence.
Qed.

Lemma dateLeb_trans :
  forall a b c : jsstring,
    dateLeb a b = true -> dateLeb b c = true -> dateLeb a c = true.
Proof.
  unfold dateLeb.
  induction a as [|x a IH]; intros [|y b] [|z c]; simpl; try congruence.
  destruct (N.compare_spec x y), (N.compare_spec y z), (N.compare_spec x z);
    subst; try congruence; try lia; try apply IH.
Qed.

(** ** The query *)

Lemma in_firstn :
  forall (A : Type) (k : nat) (l : list A) (x : A),
    In x (firstn k l) -> In x l.
Proof.
  intros A k l x Hx. rewrite <- (firstn_skipn k l).
  apply in_or_app. left. exact Hx.
Qed.

Lemma in_skipn :
  forall (A : Type) (k : nat) (l : list A) (x : A),
    In x (skipn k l) -> In x l.
Proof.
  intros A k l x Hx. rewrite <- (firstn_skipn k l).
  apply in_or_app. right. exact Hx.
Qed.

Lemma insertDesc_perm :
  forall r l, Permutation (r :: l) (insertDesc r l).
Proof.
  intros r l. induction l as [|x rest IH]; simpl.
  - apply Permutation_refl.
  - destruct (dateLeb (date x) (date r)).
    + apply Permutation_refl.
    + eapply perm_trans; [apply perm_swap|]. apply perm_skip. exact IH.
Qed.

Lemma orderByDateDesc_perm :
  forall l, Permutation l (orderByDateDesc l).
Proof.
  induction l as [|r l IH]; simpl.
  - apply perm_nil.
  - eapply perm_trans; [apply perm_skip; exact IH|]. apply insertDesc_perm.
Qed.

Lemma insertDesc_descending :
  forall r l, Descending l -> Descending (insertDesc r l).
Proof.
  unfold Descending. intros r l Hl. induction Hl as [|x rest Hrest IH Hx]; simpl.
  - constructor; constructor.
  - destruct (dateLeb (date x) (date r)) eqn:Hcmp.
    + constructor.
      * constructor; assumption.
      * constructor; [exact Hcmp|].
        rewrite Forall_forall in *. intros y Hy.
        apply dateLeb_trans with (b := date x); [apply Hx; exact Hy|exact Hcmp].
    + constructor; [exact IH|].
      rewrite Forall_forall in *. intros y Hy.
      apply (Permutation_in _ (Permutation_sym (insertDesc_perm r rest))) in Hy.
      destruct Hy as [Hy|Hy].
      * subst y. apply dateLeb_total. exact Hcmp.
      * apply Hx. exact Hy.
Qed.

Lemma orderByDateDesc_descending :
  forall l, Descending (orderByDateDesc l).
Proof.
  induction l as [|r l IH]; simpl.
  - constructor.
  - apply insertDesc_descending. exact IH.
Qed.

Lemma descending_split :
  forall (k : nat) (l : list OverallSummary),
    Descending l ->
    Descending (firstn k l)
    /\ forall r r', In r (firstn k l) -> In r' (skipn k l) ->
                    dateLeb (date r') (date r) = true.
Proof.
  unfold Descending. intros k l Hl. revert k.
  induction Hl as [|x rest Hrest IH Hx]; intros [|k]; simpl.
  - split; [constructor|contradiction].
  - split; [constructor|contradiction].
  - split; [constructor|contradiction].
  - destruct (IH k) as [Hsorted Hcut]. split.
    + constructor; [exact Hsorted|].
      rewrite Forall_forall in *. intros y Hy. apply Hx.
      eapply in_firstn. exact Hy.
    + intros r r' [Hr|Hr] Hr'.
      * subst r. rewrite Forall_forall in Hx. apply Hx.
        eapply in_skipn. exact Hr'.
      * apply Hcut; assumption.
Qed.

(** The query answers with the [k] most recent rows of the granularity. *)
Lemma selectRecent_most_recent :
  forall (ty : IntervalType) (k : nat) (db : list OverallSummary),
    MostRecent ty k db (selectRecent ty k db).
Proof.
  intros ty k db. unfold MostRecent, selectRecent. fold (rowsOf ty db).
  pose proof (orderByDateDesc_perm (rowsOf ty db)) as Hperm.
  pose proof (orderByDateDesc_descending (rowsOf ty db)) as Hsorted.
  destruct (descending_split k Hsorted) as [Hfirst Hcut].
  split; [|split].
  - rewrite length_firstn. rewrite (Permutation_length Hperm). reflexivity.
  - exact Hfirst.
  - exists (skipn k (orderByDateDesc (rowsOf ty db))). split.
    + rewrite firstn_skipn. exact Hperm.
    + exact Hcut.
Qed.

Lemma selectRecent_granularity :
  forall (ty : IntervalType) (k : nat) (db : list OverallSummary)
         (r : OverallSummary),
    In r (selectRecent ty k db) -> intervalType r = ty /\ In r db.
Proof.
  intros ty k db r Hr. unfold selectRecent in Hr.
  apply in_firstn in Hr.
  apply (Permutation_in _ (Permutation_sym (orderByDateDesc_perm _))) in Hr.
  apply filter_In in Hr. destruct Hr as [Hdb Hty]. split; [|exact Hdb].
  destruct (intervalType r), ty; simpl in Hty; congruence.
Qed.

Lemma selectRecent_length :
  forall (ty : IntervalType) (k : nat) (db : list OverallSummary),
    List.length (selectRecent ty k db) <= k.
Proof.
  intros ty k db. unfold selectRecent. rewrite length_firstn. lia.
Qed.

(** ** [escapeXml] *)

Lemma replaceFrom_charPat :
  forall (c : N) (r s : jsstring) (prev : option N),
    replaceFrom (charPat c r) 0 prev s
    = flat_map (fun x => if N.eqb x c then r else [x]) s.
Proof.
  intros c r s. induction s as [|x s IH]; intros prev; simpl.
  - reflexivity.
  - destruct (N.eqb x c); simpl; rewrite IH; reflexivity.
Qed.

Lemma escape_one :
  forall x : N,
    flat_map (fun y => if N.eqb y 39 then lit "&apos;" else [y])
      (flat_map (fun y => if N.eqb y 34 then lit "&quot;" else [y])
         (flat_map (fun y => if N.eqb y 62 then lit "&gt;" else [y])
            (flat_map (fun y => if N.eqb y 60 then lit "&lt;" else [y])
               (if N.eqb x 38 then lit "&amp;" else [x]))))
    = escapeChar x.
Proof.
  intros x. unfold escapeChar.
  destruct (N.eqb x 38) eqn:E38; [reflexivity|].
  cbn [flat_map app].
  destruct (N.eqb x 60) eqn:E60; [reflexivity|].
  cbn [flat_map app].
  destruct (N.eqb x 62) eqn:E62; [reflexivity|].
  cbn [flat_map app].
  destruct (N.eqb x 34) eqn:E34; [reflexivity|].
  cbn [flat_map app].
  destruct (N.eqb x 39) eqn:E39; reflexivity.
Qed.

(** The five replacements in a row amount to replacing each character by
    its entity: the ampersands the later steps bring in are not escaped a
    second time. *)
Lemma escapeXml_flat_map :
  forall s : jsstring, escapeXml s = flat_map escapeChar s.
Proof.
  intros s. unfold escapeXml, replaceAll. rewrite !replaceFrom_charPat.
  induction s as [|x s IH].
  - reflexivity.
  - cbn [flat_map]. rewrite !flat_map_app. rewrite IH.
    rewrite escape_one. reflexivity.
Qed.

(** No angle bracket and no quote is left in an escaped text. *)
Lemma escapeXml_clean :
  forall (s : jsstring) (c : N),
    In c (escapeXml s) -> c <> 60%N /\ c <> 62%N /\ c <> 34%N /\ c <> 39%N.
Proof.
  intros s c. rewrite escapeXml_flat_map. rewrite in_flat_map.
  intros [x [_ Hc]]. unfold escapeChar in Hc.
  destruct (N.eqb_spec x 38);
    [|destruct (N.eqb_spec x 60);
      [|destruct (N.eqb_spec x 62);
        [|destruct (N.eqb_spec x 34);
          [|destruct (N.eqb_spec x 39)]]]];
    simpl in Hc;
    repeat (destruct Hc as [Hc|Hc]; [subst c; repeat split; lia|]);
    try contradiction.
Qed.

(** ** One item *)

(** X20: the description element by the length of the stripped body: the
    escaped first 500 code units and an ellipsis when it is longer than
    500, the escaped body and an ellipsis when it is exactly 500 long, the
    escaped body alone when it is shorter. *)
Lemma description_by_length :
  forall (row : OverallSummary) (c : N) (s fallback : jsstring),
    summary row = Some (c :: s) ->
    (500 < List.length (stripMarkdown (c :: s)) ->
     descriptionText (itemDescription row fallback)
     = escapeXml (firstn 500 (stripMarkdown (c :: s))) ++ lit "...")
    /\ (List.length (stripMarkdown (c :: s)) = 500 ->
        descriptionText (itemDescription row fallback)
        = escapeXml (stripMarkdown (c :: s)) ++ lit "...")
    /\ (List.length (stripMarkdown (c :: s)) < 500 ->
        descriptionText (itemDescription row fallback)
        = escapeXml (stripMarkdown (c :: s))).
Proof.
  intros row c s fallback Hsum. unfold descriptionText, itemDescription.
  rewrite Hsum. repeat split; intros Hlen.
  - rewrite length_firstn.
    replace (Nat.min 500 (List.length (stripMarkdown (c :: s)))) with 500
      by lia.
    reflexivity.
  - rewrite firstn_all2 by lia. rewrite Hlen. reflexivity.
  - rewrite firstn_all2 by lia.
    destruct (Nat.leb_spec 500 (List.length (stripMarkdown (c :: s))));
      [lia|]. apply app_nil_r.
Qed.

Section RouteFacts.

Variable siteUrl : option jsstring.
Variable utcString : jsstring -> jsstring.
Variable now : jsstring.

(** C8, the code at the failing input: the summary of 500 letters is its
    own stripped body, exactly 500 long and so not longer than 500, and
    both handlers render it whole with the ellipsis behind it. *)
Theorem ellipsis_on_exactly_500 :
  stripMarkdown (repeat 97%N 500) = repeat 97%N 500
  /\ List.length (stripMarkdown (repeat 97%N 500)) = 500
  /\ descriptionText (repeat 97%N 500) = repeat 97%N 500 ++ lit "..."
  /\ formatItem siteUrl utcString (rowOfLength 500) (lit "day")
       (lit "Daily Summary")
     = itemTemplate (lit "Daily Summary: 2024-01-01")
         (interp siteUrl ++ lit "/summary/day/2024-01-01")
         (utcString (lit "2024-01-01")) (repeat 97%N 500)
  /\ formatDailyItem siteUrl utcString (rowOfLength 500)
     = itemTemplate (lit "Daily Summary: 2024-01-01")
         (interp siteUrl ++ lit "/summary/day/2024-01-01")
         (utcString (lit "2024-01-01")) (repeat 97%N 500).
Proof.
  assert (Hstrip : stripMarkdown (repeat 97%N 500) = repeat 97%N 500)
    by (vm_compute; reflexivity).
  split; [exact Hstrip|]. split; [rewrite Hstrip; apply repeat_length|].
  split; [vm_compute; reflexivity|].
  assert (Hdesc : forall fallback,
             itemDescription (rowOfLength 500) fallback = repeat 97%N 500).
  { intros fallback. vm_compute. reflexivity. }
  split.
  - unfold formatItem. rewrite Hdesc. reflexivity.
  - unfold formatDailyItem. rewrite Hdesc. reflexivity.
Qed.

(** C9, the code at the failing input: the date of the row goes into the
    title of the item as it is, markup characters included, in both
    handlers; only the description is escaped. *)
Theorem item_title_not_escaped :
  formatItem siteUrl utcString markupRow (lit "day") (lit "Daily Summary")
  = nl ++ lit "    <item>" ++ nl
    ++ lit "      <title>Daily Summary: <2024&01></title>" ++ nl
    ++ lit "      <link>" ++ interp siteUrl
    ++ lit "/summary/day/<2024&01></link>" ++ nl
    ++ lit "      <guid isPermaLink=" ++ dquote ++ lit "true" ++ dquote
    ++ lit ">" ++ interp siteUrl ++ lit "/summary/day/<2024&01></guid>" ++ nl
    ++ lit "      <pubDate>" ++ utcString (lit "<2024&01>")
    ++ lit "</pubDate>" ++ nl
    ++ lit "      <description>a &lt; b</description>" ++ nl
    ++ lit "    </item>"
  /\ formatDailyItem siteUrl utcString markupRow
     = formatItem siteUrl utcString markupRow (lit "day")
         (lit "Daily Summary").
Proof.
  split.
  - unfold formatItem, itemTemplate, itemTitle, markupRow.
    cbn [date summary]. 
    change (descriptionText
              (itemDescription
                 {| date := lit "<2024&01>"; intervalType := day;
                    summary := Some (lit "a < b") |}
                 (lit "Daily Summary" ++ lit " contributor activity summary")))
      with (lit "a &lt; b").
    repeat rewrite <- app_assoc. reflexivity.
  - reflexivity.
Qed.

(** C7, amended: the handler with the three granularities builds its
    items from the 1 most recent monthly, the 4 most recent weekly and the
    30 most recent daily rows, so at most 1, 4 and 30 of them (of 35 daily
    rows the 30 latest), and joins them inside the RSS envelope; the handler
    of src/app/rss.xml/route.ts builds its items from the 20 most recent
    daily rows alone. *)
Theorem feed_serves_most_recent :
  forall db : list OverallSummary,
    (exists monthly weekly daily,
        feedItems siteUrl utcString db
        = map (fun r => formatItem siteUrl utcString r (lit "month")
                          (lit "Monthly Summary")) monthly
          ++ map (fun r => formatItem siteUrl utcString r (lit "week")
                             (lit "Weekly Summary")) weekly
          ++ map (fun r => formatItem siteUrl utcString r (lit "day")
                             (lit "Daily Summary")) daily
        /\ MostRecent month 1 db monthly
        /\ MostRecent week 4 db weekly
        /\ MostRecent day 30 db daily
        /\ List.length monthly <= 1
        /\ List.length weekly <= 4
        /\ List.length daily <= 30
        /\ (List.length (rowsOf day db) = 35 -> List.length daily = 30))
    /\ body (GET siteUrl utcString now db)
       = rssDocument siteUrl now (List.concat (feedItems siteUrl utcString db))
    /\ (exists daily,
          dailyFeedItems siteUrl utcString db
          = map (formatDailyItem siteUrl utcString) daily
          /\ MostRecent day 20 db daily
          /\ List.length daily <= 20
          /\ (List.length (rowsOf day db) = 35 -> List.length daily = 20))
    /\ body (GET_daily siteUrl utcString now db)
       = rssDocument siteUrl now
           (List.concat (dailyFeedItems siteUrl utcString db)).
Proof.
  intros db. split; [|split; [reflexivity|split; [|reflexivity]]].
  - exists (selectRecent month 1 db), (selectRecent week 4 db),
      (selectRecent day 30 db).
    split; [reflexivity|].
    repeat split; try apply selectRecent_most_recent;
      try apply selectRecent_length.
    intros H35.
    destruct (selectRecent_most_recent day 30 db) as [Hlen _].
    rewrite Hlen, H35. reflexivity.
  - exists (selectRecent day 20 db). split; [reflexivity|].
    repeat split; try apply selectRecent_most_recent;
      try apply selectRecent_length.
    intros H35.
    destruct (selectRecent_most_recent day 20 db) as [Hlen _].
    rewrite Hlen, H35. reflexivity.
Qed.

(** C10: the items of the document are those of the monthly rows, then
    those of the weekly rows, then those of the daily rows, each group from
    the latest date to the earliest. *)
Theorem feed_items_in_fixed_order :
  forall db : list OverallSummary,
    exists monthly weekly daily,
      body (GET siteUrl utcString now db)
      = rssDocument siteUrl now
          (List.concat
             (map (fun r => formatItem siteUrl utcString r (lit "month")
                              (lit "Monthly Summary")) monthly
              ++ map (fun r => formatItem siteUrl utcString r (lit "week")
                                 (lit "Weekly Summary")) weekly
              ++ map (fun r => formatItem siteUrl utcString r (lit "day")
                                 (lit "Daily Summary")) daily))
      /\ Forall (fun r => intervalType r = month /\ In r db) monthly
      /\ Forall (fun r => intervalType r = week /\ In r db) weekly
      /\ Forall (fun r => intervalType r = day /\ In r db) daily
      /\ Descending monthly
      /\ Descending weekly
      /\ Descending daily.
Proof.
  intros db.
  exists (selectRecent month 1 db), (selectRecent week 4 db),
    (selectRecent day 30 db).
  split; [reflexivity|].
  repeat split;
    try (apply Forall_forall; intros r Hr;
         apply (selectRecent_granularity _ _ _ _ Hr));
    match goal with
    | |- Descending (selectRecent ?ty ?k db) =>
        destruct (selectRecent_most_recent ty k db) as [_ [Hdesc _]];
        exact Hdesc
    end.
Qed.

End RouteFacts.

(** ** The handlers on thirty-five daily rows *)

(** C7 as stated fails on the handler of src/app/rss.xml/route.ts: of 35
    daily rows it serves 20, the days from February 4th back to January
    16th, not 30. *)
Lemma daily_route_serves_twenty :
  List.length (rowsOf day thirtyFiveDays) = 35
  /\ List.length (dailyFeedItems None (fun d => d) thirtyFiveDays) = 20
  /\ dailyFeedItems None (fun d => d) thirtyFiveDays
     = map (formatDailyItem None (fun d => d))
         (firstn 20 (rev thirtyFiveDays))
  /\ List.length (dailyFeedItems None (fun d => d) thirtyFiveDays) <> 30.
Proof.
  assert (Hitems : dailyFeedItems None (fun d => d) thirtyFiveDays
                   = map (formatDailyItem None (fun d => d))
                       (firstn 20 (rev thirtyFiveDays)))
    by (vm_compute; reflexivity).
  split; [vm_compute; reflexivity|].
  split; [rewrite Hitems; vm_compute; reflexivity|].
  split; [exact Hitems|].
  rewrite Hitems. vm_compute. discriminate.
Qed.

Lemma feed_serves_most_recent_witness :
  (exists daily,
      feedItems None (fun d => d) thirtyFiveDays
      = map (fun r => formatItem None (fun d => d) r (lit "day")
                        (lit "Daily Summary")) daily
      /\ List.length daily = 30)
  /\ (exists daily,
        dailyFeedItems None (fun d => d) thirtyFiveDays
        = map (formatDailyItem None (fun d => d)) daily
        /\ List.length daily = 20).
Proof.
  destruct (feed_serves_most_recent None (fun d => d) [] thirtyFiveDays)
    as [[monthly [weekly [daily [Hitems [Hm [Hw [_ [_ [_ [_ H30]]]]]]]]]]
          [_ [[daily' [Hitems' [_ [_ H20]]]] _]]].
  destruct Hm as [Hm _]. destruct Hw as [Hw _].
  change (List.length monthly = 0) in Hm.
  change (List.length weekly = 0) in Hw.
  destruct monthly; [|discriminate]. destruct weekly; [|discriminate].
  split.
  - exists daily. split; [exact Hitems|]. apply H30. reflexivity.
  - exists daily'. split; [exact Hitems'|]. apply H20. reflexivity.
Defined.

(** The handler with the three granularities serves the 30 latest of them,
    from February 4th back to January 6th. *)
Example feed_serves_thirty_of_thirty_five :
  feedItems None (fun d => d) thirtyFiveDays
  = map (fun r => formatItem None (fun d => d) r (lit "day")
                    (lit "Daily Summary"))
      (firstn 30 (rev thirtyFiveDays)).
Proof. vm_compute. reflexivity. Qed.

End RssSpec.

(* ================================================================= *)
(** * Further properties of the summarizer pipeline *)

Module SummarizerExtra.

Import Summarizer.
Import SummarizerSpec.

(** The cases of a membership in a concrete trace. *)
Ltac trace_cases H :=
  repeat (rewrite in_app_iff in H; simpl in H);
  repeat match goal with
         | H' : _ \/ _ |- _ => destruct H'
         | H' : False |- _ => contradiction
         | H' : @eq (Event _ _) _ _ |- _ => inversion H'; clear H'; subst
         end.

Section WorkerMore.

Variables Date Metrics Settings W : Type.
Variable env : Collaborators Date Metrics Settings W.

Local Abbreviation worker := (generateRepoSummaryForInterval env).

(** X1: a run that returns a summary has stored it under (repoId, start
    date, intervalType) and written it to the path derived from the same
    three values, both calls having completed; the summary is not empty. *)
Theorem returned_summary_was_stored_and_exported :
  forall (interval : TimeInterval Date) (repoId : jsstring)
         (ctx : SummarizerPipelineContext Settings) (w : W) (text : jsstring),
    outcomeOf (worker (interval, repoId) ctx w) = Ok (RSummary text) ->
    exists date path,
      toDateString env (intervalStart interval) = Ok date
      /\ getRepoFilePath env (outputDir ctx) repoId (lit "summaries")
           (intervalType interval) (date ++ lit ".md") = Ok path
      /\ In (CalledStoreRepoSummary repoId date text (intervalType interval)
               (Ok tt))
            (traceOf (worker (interval, repoId) ctx w))
      /\ In (CalledWriteToFile path text (Ok tt))
            (traceOf (worker (interval, repoId) ctx w))
      /\ text <> [].
Proof.
  intros interval repoId ctx w text.
  unfold_worker. follow; intros Hret; try discriminate;
    inversion Hret; subst;
    repeat match goal with u : unit |- _ => destruct u end;
    eexists; eexists;
    (split; [reflexivity|]); (split; [eassumption|]);
    repeat split; try discriminate;
    repeat (rewrite in_app_iff; simpl); auto 12.
Qed.

(** X2: the calls of a run come in the one order existence check, metrics
    fetch, summarizer, persistence, file write, each at most once. *)
Theorem calls_in_fixed_order :
  forall (interval : TimeInterval Date) (repoId : jsstring)
         (ctx : SummarizerPipelineContext Settings) (w : W),
    StronglySorted lt
      (map (@callRank Metrics Settings)
         (callsOf (traceOf (worker (interval, repoId) ctx w)))).
Proof.
  intros interval repoId ctx w. unfold callsOf.
  unfold_worker. follow; repeat constructor.
Qed.

(** X3: once a call of a run has thrown, no call that comes later in the
    worker's sequence is made. *)
Theorem nothing_called_after_a_throw :
  forall (interval : TimeInterval Date) (repoId : jsstring)
         (ctx : SummarizerPipelineContext Settings) (w : W)
         (failed other : Event Metrics Settings) (err : JsError),
    In failed (traceOf (worker (interval, repoId) ctx w)) ->
    thrownBy failed = Some err ->
    In other (traceOf (worker (interval, repoId) ctx w)) ->
    callRank other <= callRank failed.
Proof.
  intros interval repoId ctx w failed other err.
  unfold_worker. follow; intros Hfailed Hthrown Hother;
    trace_cases Hfailed; simpl in Hthrown; try discriminate;
    trace_cases Hother; simpl; lia.
Qed.

(** X4: with the overwrite flag set the worker never looks at the file
    system: no existence check is made, whatever the output directory. *)
Theorem overwrite_skips_existence_check :
  forall (interval : TimeInterval Date) (repoId : jsstring)
         (ctx : SummarizerPipelineContext Settings) (w : W),
    overwrite ctx = true ->
    existsb (@isExistsCheck Metrics Settings)
      (traceOf (worker (interval, repoId) ctx w)) = false.
Proof.
  intros interval repoId ctx w Hover.
  unfold_worker. rewrite Hover. follow; reflexivity.
Qed.

(** X5: the worker returns null exactly when AI summarization is
    disabled. *)
Theorem null_iff_disabled :
  forall (interval : TimeInterval Date) (repoId : jsstring)
         (ctx : SummarizerPipelineContext Settings) (w : W),
    outcomeOf (worker (interval, repoId) ctx w) = Ok RNull
    <-> enabled (aiSummaryConfig ctx) = false.
Proof.
  intros interval repoId ctx w. split.
  - destruct (enabled (aiSummaryConfig ctx)) eqn:Hon; [|reflexivity].
    unfold_worker. rewrite Hon. follow; intros Hnull; discriminate.
  - intros Hoff. unfold_worker. rewrite Hoff. follow; reflexivity.
Qed.

(** X6: the worker throws in two situations only.  Either [toDateString]
    threw on the start or the end of the interval, before the guarded
    block: the error is that one, and nothing was called or changed.  Or
    the context has a logger and the guarded block threw null or
    undefined: the catch clause then throws the TypeError of reading
    [message], after whatever the block did.  And in the second situation
    the worker does throw. *)
Theorem worker_throws_in_two_ways :
  forall (interval : TimeInterval Date) (repoId : jsstring)
         (ctx : SummarizerPipelineContext Settings) (w : W),
    (forall err : JsError,
        outcomeOf (worker (interval, repoId) ctx w) = Throw err ->
        enabled (aiSummaryConfig ctx) = true
        /\ (((toDateString env (intervalStart interval) = Throw err
              \/ toDateString env (intervalEnd interval) = Throw err)
             /\ worldOf (worker (interval, repoId) ctx w) = w
             /\ traceOf (worker (interval, repoId) ctx w) = [])
            \/ exists start stop scope cause w1 t1,
                 toDateString env (intervalStart interval) = Ok start
                 /\ toDateString env (intervalEnd interval) = Ok stop
                 /\ intervalLoggerOf ctx interval start = Some scope
                 /\ tryBlock env interval repoId ctx (Some scope)
                      {| startDate := start; endDate := stop |} w
                    = (Throw cause, w1, t1)
                 /\ isNullish cause = true
                 /\ err = typeErrorReadingMessage cause
                 /\ worker (interval, repoId) ctx w = (Throw err, w1, t1)))
    /\ (forall start stop scope cause w1 t1,
          enabled (aiSummaryConfig ctx) = true ->
          toDateString env (intervalStart interval) = Ok start ->
          toDateString env (intervalEnd interval) = Ok stop ->
          intervalLoggerOf ctx interval start = Some scope ->
          tryBlock env interval repoId ctx (Some scope)
            {| startDate := start; endDate := stop |} w
          = (Throw cause, w1, t1) ->
          isNullish cause = true ->
          worker (interval, repoId) ctx w
          = (Throw (typeErrorReadingMessage cause), w1, t1)).
Proof.
  intros interval repoId ctx w.
  assert (Hescape :
            forall start stop scope cause w1 t1,
              enabled (aiSummaryConfig ctx) = true ->
              toDateString env (intervalStart interval) = Ok start ->
              toDateString env (intervalEnd interval) = Ok stop ->
              intervalLoggerOf ctx interval start = Some scope ->
              tryBlock env interval repoId ctx (Some scope)
                {| startDate := start; endDate := stop |} w
              = (Throw cause, w1, t1) ->
              isNullish cause = true ->
              worker (interval, repoId) ctx w
              = (Throw (typeErrorReadingMessage cause), w1, t1)).
  { intros start stop scope cause w1 t1 Hon Hs He Hscope Hblock Hnull.
    rewrite (worker_is_guarded_block env interval repoId ctx w Hon Hs He).
    rewrite Hscope. unfold tryCatch. rewrite Hblock, catchBlock_run.
    destruct cause; try discriminate; rewrite app_nil_r; reflexivity. }
  split; [|exact Hescape].
  intros err Hthrow.
  destruct (enabled (aiSummaryConfig ctx)) eqn:Hon.
  - split; [reflexivity|].
    destruct (toDateString env (intervalStart interval)) as [start|e1] eqn:Hs.
    + destruct (toDateString env (intervalEnd interval)) as [stop|e2] eqn:He.
      * right.
        pose proof Hthrow as Hthrow'.
        rewrite (worker_is_guarded_block env interval repoId ctx w Hon Hs He)
          in Hthrow'.
        unfold tryCatch, outcomeOf in Hthrow'.
        destruct (intervalLoggerOf ctx interval start) as [scope|] eqn:Hscope.
        -- destruct (tryBlock env interval repoId ctx (Some scope)
                       {| startDate := start; endDate := stop |} w)
             as [[[v|cause] w1] t1] eqn:Hblock; [discriminate|].
           rewrite catchBlock_run in Hthrow'.
           assert (Hnull : isNullish cause = true)
             by (destruct cause; [reflexivity|reflexivity|discriminate]).
           pose proof (Hescape start stop scope cause w1 t1 eq_refl eq_refl
                         eq_refl Hscope Hblock Hnull) as Hrun.
           assert (Herr : err = typeErrorReadingMessage cause).
           { rewrite Hrun in Hthrow. unfold outcomeOf in Hthrow.
             simpl in Hthrow. inversion Hthrow. reflexivity. }
           exists start, stop, scope, cause, w1, t1.
           rewrite Herr. repeat split; try reflexivity; assumption.
        -- destruct (tryBlock env interval repoId ctx None
                       {| startDate := start; endDate := stop |} w)
             as [[[v|cause] w1] t1]; [discriminate|].
           rewrite catchBlock_run in Hthrow'. discriminate.
      * left. revert Hthrow. unfold_worker. rewrite Hon, Hs, He.
        follow; intros Hthrow; inversion Hthrow; subst; auto.
    + left. revert Hthrow. unfold_worker. rewrite Hon, Hs.
      follow; intros Hthrow; inversion Hthrow; subst; auto.
  - exfalso. revert Hthrow. unfold_worker. rewrite Hon.
    follow; intros Hthrow; discriminate.
Qed.

(** What a run that returned a summary went through. *)
Lemma successful_run_facts :
  forall (interval : TimeInterval Date) (repoId : jsstring)
         (ctx : SummarizerPipelineContext Settings) (w w' : W)
         (text : jsstring) (t : list (Event Metrics Settings)),
    worker (interval, repoId) ctx w = (Ok (RSummary text), w', t) ->
    enabled (aiSummaryConfig ctx) = true
    /\ exists date stop path w3,
         toDateString env (intervalStart interval) = Ok date
         /\ toDateString env (intervalEnd interval) = Ok stop
         /\ getRepoFilePath env (outputDir ctx) repoId (lit "summaries")
              (intervalType interval) (date ++ lit ".md") = Ok path
         /\ writeToFile env path text w3 = (Ok tt, w').
Proof.
  intros interval repoId ctx w w' text t.
  destruct (enabled (aiSummaryConfig ctx)) eqn:Hon.
  - unfold_worker. rewrite Hon.
    follow; intros Hrun; try discriminate; inversion Hrun; subst;
      repeat match goal with u : unit |- _ => destruct u end;
      (split; [reflexivity|]);
      do 4 eexists; repeat split; eassumption.
  - unfold_worker. rewrite Hon. follow; intros Hrun; discriminate.
Qed.

(** X8: where a written file exists afterwards, the world a run leaves
    behind after returning a summary makes the same worker, with
    overwrite=false and a non-empty output directory, skip: the second run
    returns undefined, changes nothing and calls neither the metrics query,
    nor the summarizer, nor the persistence, nor the file writer. *)
Theorem second_run_skips :
  forall (interval : TimeInterval Date) (repoId : jsstring)
         (ctx : SummarizerPipelineContext Settings) (w w' : W)
         (text dir : jsstring) (t : list (Event Metrics Settings)),
    overwrite ctx = false ->
    outputDir ctx = Some dir ->
    dir <> [] ->
    (forall path content w0 w1,
        writeToFile env path content w0 = (Ok tt, w1) ->
        existsSync env path w1 = true) ->
    worker (interval, repoId) ctx w = (Ok (RSummary text), w', t) ->
    outcomeOf (worker (interval, repoId) ctx w') = Ok RUndefined
    /\ worldOf (worker (interval, repoId) ctx w') = w'
    /\ existsb (@isMetricsFetch Metrics Settings)
         (traceOf (worker (interval, repoId) ctx w')) = false
    /\ existsb (@isSummarizerCall Metrics Settings)
         (traceOf (worker (interval, repoId) ctx w')) = false
    /\ existsb (@isPersistence Metrics Settings)
         (traceOf (worker (interval, repoId) ctx w')) = false
    /\ existsb (@isFileWrite Metrics Settings)
         (traceOf (worker (interval, repoId) ctx w')) = false.
Proof.
  intros interval repoId ctx w w' text dir t Hover Hdir Hne Hwrite Hrun.
  destruct (successful_run_facts _ _ _ _ Hrun)
    as [Hon [date [stop [path [w3 [Hs [He [Hp Hw]]]]]]]].
  pose proof (Hwrite _ _ _ _ Hw) as Hex.
  rewrite Hdir in Hp.
  unfold_worker. rewrite Hon, Hover, Hdir, Hs, He. simpl.
  destruct dir as [|d dir']; [congruence|]. simpl.
  destruct (logger ctx); simpl; rewrite ?Hs; simpl; rewrite Hp; simpl;
    rewrite Hex; simpl; repeat split; reflexivity.
Qed.

(** X9: the last stage keeps the summaries and their order and drops every
    null and undefined: its output is the summaries of its input, in place,
    and filtering again changes nothing. *)
Theorem filterNullResults_keeps_summaries :
  forall results : list Returned,
    filterNullResults results
    = map RSummary
        (flat_map (fun r => match r with RSummary s => [s] | _ => [] end)
           results)
    /\ filterNullResults (filterNullResults results)
       = filterNullResults results
    /\ List.length (filterNullResults results) <= List.length results.
Proof.
  intros results. unfold filterNullResults. split; [|split].
  - induction results as [|[| |s] rest IH]; simpl; congruence.
  - induction results as [|[| |s] rest IH]; simpl; congruence.
  - apply filter_length_le.
Qed.

(** X10: a pipe whose granularity is disabled runs no worker: it does what
    its interval source does and answers with the empty list, however many
    intervals the source produced. *)
Theorem disabled_pipe_runs_no_worker :
  forall (PipelineInput : Type)
         (generateTimeIntervals :
            IntervalType -> PipelineInput ->
            Step Metrics Settings W (list (TimeInterval Date * jsstring)))
         (input : PipelineInput)
         (ctx : SummarizerPipelineContext Settings) (w : W),
    (ei_day (enabledIntervals ctx) = false ->
     forall intervals w1 t1,
       generateTimeIntervals day input w = (Ok intervals, w1, t1) ->
       generateDailyRepoSummaries env generateTimeIntervals input ctx w
       = (Ok [], w1, t1))
    /\ (ei_week (enabledIntervals ctx) = false ->
        forall intervals w1 t1,
          generateTimeIntervals week input w = (Ok intervals, w1, t1) ->
          generateWeeklyRepoSummaries env generateTimeIntervals input ctx w
          = (Ok [], w1, t1))
    /\ (ei_month (enabledIntervals ctx) = false ->
        forall intervals w1 t1,
          generateTimeIntervals month input w = (Ok intervals, w1, t1) ->
          generateMonthlyRepoSummaries env generateTimeIntervals input ctx w
          = (Ok [], w1, t1)).
Proof.
  intros PipelineInput generateTimeIntervals input ctx w.
  unfold generateDailyRepoSummaries, generateWeeklyRepoSummaries,
    generateMonthlyRepoSummaries, dailyGate, weeklyGate, monthlyGate, bind.
  repeat split; intros Hflag intervals w1 t1 Hsource;
    rewrite Hsource, Hflag; simpl; rewrite app_nil_r; reflexivity.
Qed.

End WorkerMore.

(** ** The further properties on the concrete world *)

Lemma jseqb_refl : forall s : jsstring, jseqb s s = true.
Proof.
  induction s as [|c s IH]; simpl; [reflexivity|].
  rewrite N.eqb_refl. exact IH.
Qed.

(** In the concrete world a written file exists afterwards. *)
Lemma demo_written_file_exists :
  forall path content w0 w1,
    writeToFile Demo.collaborators path content w0 = (Ok tt, w1) ->
    existsSync Demo.collaborators path w1 = true.
Proof.
  intros path content w0 w1 Hw. simpl in Hw. unfold Demo.demo_writeToFile in Hw.
  inversion Hw; subst. simpl. unfold Demo.demo_existsSync. simpl.
  rewrite jseqb_refl. reflexivity.
Qed.

Lemma returned_summary_was_stored_and_exported_witness :
  exists date path,
    toDateString Demo.collaborators (intervalStart Demo.jan1) = Ok date
    /\ getRepoFilePath Demo.collaborators (Some (lit "out")) Demo.r1
         (lit "summaries") day (date ++ lit ".md") = Ok path
    /\ In (CalledStoreRepoSummary Demo.r1 date (lit "Great progress") day
             (Ok tt))
          (traceOf
             (generateRepoSummaryForInterval Demo.collaborators
                (Demo.jan1, Demo.r1)
                (Demo.context true false (Some (lit "out"))) Demo.fresh))
    /\ In (CalledWriteToFile path (lit "Great progress") (Ok tt))
          (traceOf
             (generateRepoSummaryForInterval Demo.collaborators
                (Demo.jan1, Demo.r1)
                (Demo.context true false (Some (lit "out"))) Demo.fresh))
    /\ lit "Great progress" <> [].
Proof.
  apply (returned_summary_was_stored_and_exported Demo.collaborators
           Demo.jan1 Demo.r1 (Demo.context true false (Some (lit "out")))
           Demo.fresh).
  vm_compute. reflexivity.
Defined.

Lemma nothing_called_after_a_throw_witness :
  callRank
    (CalledGetRepoMetrics (Settings := unit) Demo.r1
       {| startDate := lit "2024-01-01"; endDate := lit "2024-01-02" |}
       (Ok 3))
  <= callRank
       (CalledGenerateRepoSummary 3 {| enabled := true; settings := tt |}
          {| startDate := lit "2024-01-01"; endDate := lit "2024-01-02" |}
          day (Throw (errorOf (lit "service unavailable")))).
Proof.
  apply (nothing_called_after_a_throw Demo.collaborators Demo.jan1 Demo.r1
           (Demo.context true true (Some (lit "out"))) Demo.outage
           (CalledGenerateRepoSummary 3 {| enabled := true; settings := tt |}
              {| startDate := lit "2024-01-01"; endDate := lit "2024-01-02" |}
              day (Throw (errorOf (lit "service unavailable"))))
           (CalledGetRepoMetrics Demo.r1
              {| startDate := lit "2024-01-01"; endDate := lit "2024-01-02" |}
              (Ok 3))
           (err := errorOf (lit "service unavailable"))).
  - vm_compute. right. left. reflexivity.
  - reflexivity.
  - vm_compute. left. reflexivity.
Defined.

Lemma overwrite_skips_existence_check_witness :
  existsb (@isExistsCheck nat unit)
    (traceOf
       (generateRepoSummaryForInterval Demo.collaborators
          (Demo.jan1, Demo.r1)
          (Demo.context true true (Some (lit "out"))) Demo.exported))
  = false.
Proof.
  apply (overwrite_skips_existence_check Demo.collaborators Demo.jan1
           Demo.r1 (Demo.context true true (Some (lit "out")))
           Demo.exported).
  reflexivity.
Defined.

Lemma null_iff_disabled_witness :
  enabled (aiSummaryConfig (Demo.context false false None)) = false.
Proof.
  apply (null_iff_disabled Demo.collaborators Demo.jan1 Demo.r1
           (Demo.context false false None) Demo.fresh).
  vm_compute. reflexivity.
Defined.

Lemma worker_throws_in_two_ways_witness :
  generateRepoSummaryForInterval Demo.rejectingWithNull (Demo.jan1, Demo.r1)
    (Demo.context true true (Some (lit "out"))) Demo.fresh
  = (Throw (typeErrorReadingMessage ThrownNull), Demo.fresh,
     [CalledGetRepoMetrics Demo.r1
        {| startDate := lit "2024-01-01"; endDate := lit "2024-01-02" |}
        (Throw ThrownNull)])
  /\ traceOf
       (generateRepoSummaryForInterval Demo.collaborators
          ({| intervalType := week; intervalStart := Some (lit "2024-01-01");
              intervalEnd := None |}, Demo.r1)
          (Demo.context true false (Some (lit "out"))) Demo.fresh)
     = [].
Proof.
  split.
  - apply (proj2 (worker_throws_in_two_ways Demo.rejectingWithNull Demo.jan1
                    Demo.r1 (Demo.context true true (Some (lit "out")))
                    Demo.fresh)
             (lit "2024-01-01") (lit "2024-01-02")
             [lit "day"; lit "2024-01-01"] ThrownNull Demo.fresh
             [CalledGetRepoMetrics Demo.r1
                {| startDate := lit "2024-01-01";
                   endDate := lit "2024-01-02" |}
                (Throw ThrownNull)]).
    + reflexivity.
    + reflexivity.
    + reflexivity.
    + reflexivity.
    + vm_compute. reflexivity.
    + reflexivity.
  - destruct (proj1 (worker_throws_in_two_ways Demo.collaborators
                       {| intervalType := week;
                          intervalStart := Some (lit "2024-01-01");
                          intervalEnd := None |}
                       Demo.r1 (Demo.context true false (Some (lit "out")))
                       Demo.fresh)
                (errorOf (lit "Invalid time value")))
      as [_ [[_ [_ Htrace]]|Hcatch]].
    + vm_compute. reflexivity.
    + exact Htrace.
    + destruct Hcatch as [start [stop [scope [cause [w1 [t1 [_ [Hstop _]]]]]]]].
      discriminate Hstop.
Defined.

Lemma second_run_skips_witness :
  outcomeOf
    (generateRepoSummaryForInterval Demo.collaborators (Demo.jan1, Demo.r1)
       (Demo.context true false (Some (lit "out"))) Demo.exported)
  = Ok RUndefined.
Proof.
  apply (second_run_skips Demo.collaborators Demo.jan1 Demo.r1
           (Demo.context true false (Some (lit "out")))
           Demo.fresh (w' := Demo.exported)
           (text := lit "Great progress") (dir := lit "out")
           (t := traceOf
                   (generateRepoSummaryForInterval Demo.collaborators
                      (Demo.jan1, Demo.r1)
                      (Demo.context true false (Some (lit "out")))
                      Demo.fresh))).
  - reflexivity.
  - reflexivity.
  - discriminate.
  - exact demo_written_file_exists.
  - vm_compute. reflexivity.
Defined.

Lemma disabled_pipe_runs_no_worker_witness :
  generateWeeklyRepoSummaries Demo.collaborators
    (fun (_ : IntervalType) (_ : unit) (w : Demo.World) =>
       (Ok [(Demo.jan1, Demo.r1); (Demo.jan1, Demo.r1)], w, []))
    tt
    {| logger := None;
       aiSummaryConfig := {| enabled := true; settings := tt |};
       overwrite := false;
       outputDir := None;
       enabledIntervals :=
         {| ei_day := true; ei_week := false; ei_month := true |} |}
    Demo.fresh
  = (Ok [], Demo.fresh, []).
Proof.
  destruct (disabled_pipe_runs_no_worker Demo.collaborators
              (fun (_ : IntervalType) (_ : unit) (w : Demo.World) =>
                 (Ok [(Demo.jan1, Demo.r1); (Demo.jan1, Demo.r1)], w, []))
              tt
              {| logger := None;
                 aiSummaryConfig := {| enabled := true; settings := tt |};
                 overwrite := false;
                 outputDir := None;
                 enabledIntervals :=
                   {| ei_day := true; ei_week := false; ei_month := true |} |}
              Demo.fresh)
    as [_ [Hweek _]].
  apply (Hweek eq_refl [(Demo.jan1, Demo.r1); (Demo.jan1, Demo.r1)]).
  reflexivity.
Defined.

End SummarizerExtra.

(* ================================================================= *)
(** * Further properties of the RSS route handlers *)

Module RssExtra.

Import Rss.
Import RssSpec.

(** ** [escapeXml] *)

(** Split on which of the five characters [x] is, if any. *)
Ltac which_special x :=
  unfold escapeChar, isXmlSpecial in *;
  destruct (N.eqb_spec x 38);
    [subst x
    |destruct (N.eqb_spec x 60);
      [subst x
      |destruct (N.eqb_spec x 62);
        [subst x
        |destruct (N.eqb_spec x 34);
          [subst x
          |destruct (N.eqb_spec x 39); [subst x|]]]]];
  simpl in *.

(** X11: [escapeXml] works character by character: the escaped text is
    the concatenation of the entities of its characters (ampersands brought
    in by an entity are not escaped again), so escaping distributes over
    concatenation. *)
Theorem escapeXml_per_character :
  forall a b : jsstring,
    escapeXml a = flat_map escapeChar a
    /\ escapeXml (a ++ b) = escapeXml a ++ escapeXml b.
Proof.
  intros a b. split.
  - apply escapeXml_flat_map.
  - rewrite !escapeXml_flat_map. apply flat_map_app.
Qed.

Lemma escapeChar_cancel :
  forall (x y : N) (r1 r2 : jsstring),
    escapeChar x ++ r1 = escapeChar y ++ r2 -> x = y /\ r1 = r2.
Proof.
  intros x y r1 r2 H.
  which_special x; which_special y;
    inversion H; subst; try lia; try congruence; split; reflexivity.
Qed.

(** X12: [escapeXml] loses nothing: two texts with the same escaped form
    are the same text. *)
Theorem escapeXml_injective :
  forall a b : jsstring, escapeXml a = escapeXml b -> a = b.
Proof.
  intros a b. rewrite !escapeXml_flat_map. revert b.
  induction a as [|x a IH]; intros [|y b] H; simpl in H.
  - reflexivity.
  - exfalso. symmetry in H. which_special y; discriminate.
  - exfalso. which_special x; discriminate.
  - apply escapeChar_cancel in H. destruct H as [Hxy Hrest].
    subst y. f_equal. apply IH. exact Hrest.
Qed.

Lemma escapeChar_length :
  forall x : N,
    1 <= List.length (escapeChar x) <= 6
    /\ (isXmlSpecial x = true -> 1 < List.length (escapeChar x))
    /\ (isXmlSpecial x = false -> escapeChar x = [x]).
Proof.
  intros x. which_special x; repeat split; intros; simpl;
    try lia; try discriminate; try reflexivity.
Qed.

Lemma escapeXml_length :
  forall s : jsstring,
    List.length s <= List.length (escapeXml s) <= 6 * List.length s.
Proof.
  intros s. rewrite escapeXml_flat_map.
  induction s as [|x s IH]; simpl; [lia|].
  rewrite length_app.
  destruct (escapeChar_length x) as [Hx _]. lia.
Qed.

Lemma escapeXml_grows_on_special :
  forall (s : jsstring) (c : N),
    In c s -> isXmlSpecial c = true ->
    List.length s < List.length (escapeXml s).
Proof.
  intros s c. rewrite escapeXml_flat_map.
  induction s as [|x s IH]; intros Hin Hc; [contradiction|].
  simpl. rewrite length_app.
  pose proof (escapeXml_length s) as Hs. rewrite escapeXml_flat_map in Hs.
  destruct (escapeChar_length x) as [Hx [Hlong _]].
  destruct Hin as [Hin|Hin].
  - subst x. specialize (Hlong Hc). lia.
  - specialize (IH Hin Hc). lia.
Qed.

(** X13: [escapeXml] leaves a text unchanged exactly when the text holds
    none of the five characters; in every case the escaped text is at least
    as long as the text and at most six times as long. *)
Theorem escapeXml_unchanged_iff_plain :
  forall s : jsstring,
    (escapeXml s = s <-> forallb (fun c => negb (isXmlSpecial c)) s = true)
    /\ List.length s <= List.length (escapeXml s) <= 6 * List.length s.
Proof.
  intros s. split; [|apply escapeXml_length]. split.
  - intros Hsame. apply forallb_forall. intros c Hc.
    destruct (isXmlSpecial c) eqn:Hspecial; [|reflexivity].
    pose proof (escapeXml_grows_on_special s c Hc Hspecial) as Hlen.
    rewrite Hsame in Hlen. lia.
  - intros Hplain. rewrite escapeXml_flat_map.
    induction s as [|x s IH]; [reflexivity|].
    simpl in Hplain. apply andb_true_iff in Hplain.
    destruct Hplain as [Hx Hs]. apply negb_true_iff in Hx.
    destruct (escapeChar_length x) as [_ [_ Hsingle]].
    simpl. rewrite (Hsingle Hx), (IH Hs). reflexivity.
Qed.

(** X14: whatever the text, its escaped form holds no [<], no [>], no
    double quote and no single quote. *)
Theorem escapeXml_leaves_no_markup :
  forall s : jsstring,
    forallb (fun c => negb (N.eqb c 60 || N.eqb c 62 || N.eqb c 34
                            || N.eqb c 39)) (escapeXml s) = true.
Proof.
  intros s. apply forallb_forall. intros c Hc.
  destruct (escapeXml_clean s c Hc) as [H60 [H62 [H34 H39]]].
  apply N.eqb_neq in H60, H62, H34, H39.
  rewrite H60, H62, H34, H39. reflexivity.
Qed.

(** ** [stripMarkdown] *)

(** A pattern that needs one of some characters to start on leaves a text
    without them as it is. *)
Lemma replaceFrom_untriggered :
  forall (p : Pattern) (trigger : N -> bool),
    (forall prev c rest, trigger c = false -> p prev (c :: rest) = None) ->
    forall (s : jsstring) (prev : option N),
      forallb (fun c => negb (trigger c)) s = true ->
      replaceFrom p 0 prev s = s.
Proof.
  intros p trigger Hp s. induction s as [|c s IH]; intros prev Hs.
  - reflexivity.
  - simpl in Hs. apply andb_true_iff in Hs. destruct Hs as [Hc Hs].
    apply negb_true_iff in Hc. simpl. rewrite (Hp prev c s Hc).
    rewrite (IH (Some c) Hs). reflexivity.
Qed.

(** Where the pattern fails the character is kept. *)
Lemma replaceFrom_no_match :
  forall (p : Pattern) (prev : option N) (c : N) (rest : jsstring),
    p prev (c :: rest) = None ->
    replaceFrom p 0 prev (c :: rest) = c :: replaceFrom p 0 (Some c) rest.
Proof.
  intros p prev c rest Hnone. cbn [replaceFrom]. rewrite Hnone. reflexivity.
Qed.

(** Where it matches, the replacement stands for the match. *)
Lemma replaceFrom_match :
  forall (p : Pattern) (prev : option N) (c : N) (rest replacement : jsstring)
         (k : nat),
    p prev (c :: rest) = Some (replacement, S k) ->
    replaceFrom p 0 prev (c :: rest)
    = replacement ++ replaceFrom p k (Some c) rest.
Proof.
  intros p prev c rest replacement k Hsome. cbn [replaceFrom].
  rewrite Hsome. reflexivity.
Qed.

(** Passing over a match that reaches the end of the text leaves nothing. *)
Lemma replaceFrom_skip_to_end :
  forall (p : Pattern) (s : jsstring) (prev : option N) (k : nat),
    List.length s <= k -> replaceFrom p k prev s = [].
Proof.
  intros p s. induction s as [|c s IH]; intros prev k Hk.
  - reflexivity.
  - simpl in Hk. destruct k as [|k]; [lia|]. simpl. apply IH. lia.
Qed.

Lemma headerPat_needs_hash :
  forall (prev : option N) (c : N) (rest : jsstring),
    N.eqb c 35 = false -> headerPat prev (c :: rest) = None.
Proof.
  intros prev c rest Hc.
  assert (Hat : forall k, headerAt (c :: rest) (S k) = false).
  { intros k. unfold headerAt. cbn [firstn forallb].
    rewrite (N.eqb_sym 35 c), Hc.
    rewrite andb_false_l, andb_false_r. reflexivity. }
  unfold headerPat. cbn [find]. rewrite !Hat. reflexivity.
Qed.

Lemma boldPat_needs_star :
  forall (prev : option N) (c : N) (rest : jsstring),
    N.eqb c 42 = false -> boldPat prev (c :: rest) = None.
Proof.
  intros prev c rest Hc. apply N.eqb_neq in Hc. unfold boldPat.
  destruct c as [|q]; [reflexivity|].
  do 6 (try (destruct q as [q|q|]; try reflexivity)).
  contradiction Hc. reflexivity.
Qed.

Lemma fencedPat_needs_delimiter :
  forall (d : N) (prev : option N) (c : N) (rest : jsstring),
    N.eqb c d = false -> fencedPat d prev (c :: rest) = None.
Proof.
  intros d prev c rest Hc. unfold fencedPat. rewrite Hc. reflexivity.
Qed.

Lemma linkPat_needs_bracket :
  forall (prev : option N) (c : N) (rest : jsstring),
    N.eqb c 91 = false -> linkPat prev (c :: rest) = None.
Proof.
  intros prev c rest Hc. apply N.eqb_neq in Hc. unfold linkPat.
  destruct c as [|q]; [reflexivity|].
  do 7 (try (destruct q as [q|q|]; try reflexivity)).
  contradiction Hc. reflexivity.
Qed.

(** Inside a line the list rule finds nothing. *)
Lemma listPat_inside_line :
  forall (s : jsstring) (c : N),
    isLineTerminator c = false ->
    forallb (fun x => negb (isLineTerminator x)) s = true ->
    replaceFrom listPat 0 (Some c) s = s.
Proof.
  induction s as [|x s IH]; intros c Hc Hs.
  - reflexivity.
  - simpl in Hs. apply andb_true_iff in Hs. destruct Hs as [Hx Hs].
    apply negb_true_iff in Hx.
    assert (Hnone : listPat (Some c) (x :: s) = None).
    { unfold listPat, atLineStart. rewrite Hc. destruct s; reflexivity. }
    rewrite replaceFrom_no_match by exact Hnone.
    rewrite (IH x Hx Hs). reflexivity.
Qed.

(** On one line the list rule can only fire at the very start. *)
Lemma listPat_single_line :
  forall s : jsstring,
    opensWithoutListMarker s = true ->
    forallb (fun x => negb (isLineTerminator x)) s = true ->
    replaceAll listPat s = s.
Proof.
  intros [|c [|d s]] Hopen Hline.
  - reflexivity.
  - reflexivity.
  - unfold replaceAll. simpl in Hline.
    apply andb_true_iff in Hline. destruct Hline as [Hc Hline].
    apply negb_true_iff in Hc.
    assert (Hnone : listPat None (c :: d :: s) = None).
    { unfold listPat, atLineStart. unfold opensWithoutListMarker in Hopen.
      apply negb_true_iff in Hopen. rewrite andb_true_l, Hopen.
      reflexivity. }
    rewrite replaceFrom_no_match by exact Hnone.
    rewrite (listPat_inside_line (d :: s) c Hc Hline). reflexivity.
Qed.

Lemma inline_plain_parts :
  forall s : jsstring,
    forallb isInlinePlain s = true ->
    forallb (fun c => negb (N.eqb c 35)) s = true
    /\ forallb (fun c => negb (N.eqb c 42)) s = true
    /\ forallb (fun c => negb (N.eqb c 96)) s = true
    /\ forallb (fun c => negb (N.eqb c 91)) s = true
    /\ forallb (fun c => negb (isLineTerminator c)) s = true.
Proof.
  intros s Hs. rewrite forallb_forall in Hs.
  repeat split; apply forallb_forall; intros c Hc;
    specialize (Hs c Hc); unfold isInlinePlain in Hs;
    apply andb_true_iff in Hs; destruct Hs as [Hmark Hline];
    try exact Hline;
    apply negb_true_iff in Hmark; repeat (apply orb_false_iff in Hmark;
    destruct Hmark as [Hmark ?]);
    apply negb_true_iff; assumption.
Qed.

(** The five inline rules leave inline-plain text alone. *)
Lemma inline_rules_identity :
  forall s : jsstring,
    forallb isInlinePlain s = true ->
    replaceAll headerPat s = s
    /\ replaceAll boldPat s = s
    /\ replaceAll italicPat s = s
    /\ replaceAll codePat s = s
    /\ replaceAll linkPat s = s.
Proof.
  intros s Hs.
  destruct (inline_plain_parts s Hs) as [H35 [H42 [H96 [H91 _]]]].
  unfold replaceAll, italicPat, codePat. repeat split.
  - apply (replaceFrom_untriggered headerPat (fun c => N.eqb c 35));
      [apply headerPat_needs_hash|exact H35].
  - apply (replaceFrom_untriggered boldPat (fun c => N.eqb c 42));
      [apply boldPat_needs_star|exact H42].
  - apply (replaceFrom_untriggered (fencedPat 42) (fun c => N.eqb c 42));
      [apply fencedPat_needs_delimiter|exact H42].
  - apply (replaceFrom_untriggered (fencedPat 96) (fun c => N.eqb c 96));
      [apply fencedPat_needs_delimiter|exact H96].
  - apply (replaceFrom_untriggered linkPat (fun c => N.eqb c 91));
      [apply linkPat_needs_bracket|exact H91].
Qed.

(** X15: a single line of text without [#], [*], backtick and opening
    bracket that does not open with a list marker is only trimmed. *)
Theorem stripMarkdown_plain_line :
  forall text : jsstring,
    forallb isInlinePlain text = true ->
    opensWithoutListMarker text = true ->
    stripMarkdown text = trim text.
Proof.
  intros text Hplain Hopen. unfold stripMarkdown.
  destruct (inline_rules_identity text Hplain)
    as [Hh [Hb [Hi [Hc Hl]]]].
  destruct (inline_plain_parts text Hplain) as [_ [_ [_ [_ Hline]]]].
  rewrite Hh, Hb, Hi, Hc, Hl.
  rewrite (listPat_single_line text Hopen Hline). reflexivity.
Qed.

(** *** [trim] *)

Local Unset Implicit Arguments.

Lemma trimStart_head :
  forall (s : jsstring) (c : N) (r : jsstring),
    trimStart s = c :: r -> isSpaceClass c = false.
Proof.
  induction s as [|x s IH]; intros c r H; simpl in H; [discriminate|].
  destruct (isSpaceClass x) eqn:Hx.
  - apply (IH c r H).
  - inversion H; subst. exact Hx.
Qed.

Lemma trimStart_keeps_last :
  forall (l : jsstring) (c : N),
    isSpaceClass c = false -> exists l', trimStart (l ++ [c]) = l' ++ [c].
Proof.
  induction l as [|x l IH]; intros c Hc; simpl.
  - rewrite Hc. exists []. reflexivity.
  - destruct (isSpaceClass x).
    + apply IH. exact Hc.
    + exists (x :: l). reflexivity.
Qed.

Lemma trimStart_fixed :
  forall (c : N) (r : jsstring),
    isSpaceClass c = false -> trimStart (c :: r) = c :: r.
Proof.
  intros c r Hc. simpl. rewrite Hc. reflexivity.
Qed.

Lemma trim_ends :
  forall s : jsstring,
    (forall c r, trim s = c :: r -> isSpaceClass c = false)
    /\ (forall c f, trim s = f ++ [c] -> isSpaceClass c = false).
Proof.
  intros s. unfold trim, trimEnd. split.
  - intros c r H.
    destruct (trimStart s) as [|h t] eqn:Ht; [discriminate|].
    pose proof (trimStart_head s h t Ht) as Hh.
    simpl in H.
    destruct (trimStart_keeps_last (rev t) h Hh) as [l' Hl'].
    rewrite Hl' in H. rewrite rev_app_distr in H. simpl in H.
    inversion H; subst. exact Hh.
  - intros c f H.
    apply (f_equal (@rev N)) in H.
    rewrite rev_involutive, rev_app_distr in H. simpl in H.
    apply (trimStart_head _ _ _ H).
Qed.

Lemma trim_fixed :
  forall (c : N) (middle : jsstring) (d : N),
    isSpaceClass c = false -> isSpaceClass d = false ->
    trim [c] = [c] /\ trim (c :: middle ++ [d]) = c :: middle ++ [d].
Proof.
  intros c middle d Hc Hd. unfold trim, trimEnd. split.
  - rewrite (trimStart_fixed c [] Hc). simpl. rewrite Hc. reflexivity.
  - rewrite (trimStart_fixed c (middle ++ [d]) Hc).
    assert (Hrev : rev (c :: middle ++ [d]) = d :: rev (c :: middle)).
    { change (c :: middle ++ [d]) with ((c :: middle) ++ [d]).
      rewrite rev_app_distr. reflexivity. }
    rewrite Hrev, (trimStart_fixed d (rev (c :: middle)) Hd), <- Hrev.
    apply rev_involutive.
Qed.

(** X16: what [stripMarkdown] returns neither starts nor ends with white
    space, and trimming it again changes nothing. *)
Theorem stripMarkdown_is_trimmed :
  forall text : jsstring,
    (forall c r, stripMarkdown text = c :: r -> isSpaceClass c = false)
    /\ (forall c f, stripMarkdown text = f ++ [c] -> isSpaceClass c = false)
    /\ trim (stripMarkdown text) = stripMarkdown text.
Proof.
  intros text. unfold stripMarkdown.
  set (body := replaceAll listPat _).
  destruct (trim_ends body) as [Hhead Hlast].
  split; [exact Hhead|]. split; [exact Hlast|].
  destruct (trim body) as [|c r] eqn:Hbody; [reflexivity|].
  pose proof (Hhead c r eq_refl) as Hc.
  destruct (exists_last (l := c :: r)) as [f [d Hfd]]; [discriminate|].
  pose proof (Hlast d f Hfd) as Hd.
  destruct f as [|c' f].
  - simpl in Hfd. inversion Hfd; subst.
    destruct (trim_fixed d [] d Hd Hd) as [Hone _]. exact Hone.
  - simpl in Hfd. inversion Hfd; subst.
    destruct (trim_fixed c' f d Hc Hd) as [_ Hmany]. exact Hmany.
Qed.

(** *** The rules on well-formed markup *)

Lemma spanNot_until :
  forall (c : N) (a b : jsstring),
    forallb (fun x => negb (N.eqb x c)) a = true ->
    spanNot c (a ++ c :: b) = (a, c :: b).
Proof.
  intros c a b. induction a as [|x a IH]; intros Ha; simpl.
  - rewrite N.eqb_refl. reflexivity.
  - simpl in Ha. apply andb_true_iff in Ha. destruct Ha as [Hx Ha].
    apply negb_true_iff in Hx. rewrite Hx, (IH Ha). reflexivity.
Qed.

(** X17: a link [[label](url)] whose label and url are inline-plain, the
    label free of closing brackets and the url of closing parentheses, is
    replaced by its label, trimmed. *)
Theorem stripMarkdown_link :
  forall label url : jsstring,
    label <> [] ->
    url <> [] ->
    forallb isInlinePlain label = true ->
    forallb isInlinePlain url = true ->
    forallb (fun x => negb (N.eqb x 93)) label = true ->
    forallb (fun x => negb (N.eqb x 41)) url = true ->
    opensWithoutListMarker label = true ->
    stripMarkdown (91%N :: label ++ 93%N :: 40%N :: url ++ [41%N])
    = trim label.
Proof.
  intros label url Hlabel Hurl Hpl Hpu H93 H41 Hopen.
  destruct (inline_plain_parts label Hpl) as [L35 [L42 [L96 [_ Lline]]]].
  destruct (inline_plain_parts url Hpu) as [U35 [U42 [U96 _]]].
  set (whole := 91%N :: label ++ 93%N :: 40%N :: url ++ [41%N]).
  assert (Hfree : forall t : N,
             N.eqb 91 t = false -> N.eqb 93 t = false ->
             N.eqb 40 t = false -> N.eqb 41 t = false ->
             forallb (fun c => negb (N.eqb c t)) label = true ->
             forallb (fun c => negb (N.eqb c t)) url = true ->
             forallb (fun c => negb (N.eqb c t)) whole = true).
  { intros t T91 T93 T40 T41 Tl Tu. unfold whole.
    cbn [forallb]. rewrite forallb_app. cbn [forallb].
    rewrite forallb_app. cbn [forallb].
    rewrite T91, T93, T40, T41, Tl, Tu. reflexivity. }
  unfold stripMarkdown. fold whole.
  assert (Hh : replaceAll headerPat whole = whole).
  { apply (replaceFrom_untriggered headerPat (fun c => N.eqb c 35));
      [apply headerPat_needs_hash|apply Hfree; auto]. }
  assert (Hb : replaceAll boldPat whole = whole).
  { apply (replaceFrom_untriggered boldPat (fun c => N.eqb c 42));
      [apply boldPat_needs_star|apply Hfree; auto]. }
  assert (Hi : replaceAll italicPat whole = whole).
  { apply (replaceFrom_untriggered (fencedPat 42) (fun c => N.eqb c 42));
      [apply fencedPat_needs_delimiter|apply Hfree; auto]. }
  assert (Hc : replaceAll codePat whole = whole).
  { apply (replaceFrom_untriggered (fencedPat 96) (fun c => N.eqb c 96));
      [apply fencedPat_needs_delimiter|apply Hfree; auto]. }
  rewrite Hh, Hb, Hi, Hc.
  assert (Hl : replaceAll linkPat whole = label).
  { unfold replaceAll, whole.
    destruct label as [|b label']; [congruence|].
    destruct url as [|u url']; [congruence|].
    rewrite replaceFrom_match
      with (replacement := b :: label')
           (k := List.length (b :: label') + 2 + List.length (u :: url') + 1).
    - rewrite replaceFrom_skip_to_end; [apply app_nil_r|].
      rewrite length_app. cbn [List.length]. rewrite length_app.
      cbn [List.length]. lia.
    - unfold linkPat.
      rewrite (spanNot_until 93 (b :: label') (40%N :: (u :: url') ++ [41%N]) H93).
      rewrite (spanNot_until 41 (u :: url') [] H41).
      reflexivity. }
  rewrite Hl. rewrite (listPat_single_line label Hopen Lline). reflexivity.
Qed.

(** X18: bold markers around a non-empty inline-plain text are removed,
    and the text is trimmed. *)
Theorem stripMarkdown_bold :
  forall t : jsstring,
    t <> [] ->
    forallb isInlinePlain t = true ->
    opensWithoutListMarker t = true ->
    stripMarkdown (42%N :: 42%N :: t ++ [42%N; 42%N]) = trim t.
Proof.
  intros t Ht Hplain Hopen.
  destruct (inline_plain_parts t Hplain) as [T35 [T42 [_ [_ Tline]]]].
  destruct (inline_rules_identity t Hplain) as [_ [_ [Hi [Hc Hl]]]].
  set (whole := 42%N :: 42%N :: t ++ [42%N; 42%N]).
  unfold stripMarkdown. fold whole.
  assert (Hh : replaceAll headerPat whole = whole).
  { apply (replaceFrom_untriggered headerPat (fun c => N.eqb c 35));
      [apply headerPat_needs_hash|].
    unfold whole. cbn [forallb]. rewrite forallb_app, T35. reflexivity. }
  assert (Hb : replaceAll boldPat whole = t).
  { unfold replaceAll, whole. destruct t as [|b t']; [congruence|].
    rewrite replaceFrom_match
      with (replacement := b :: t') (k := 1 + List.length (b :: t') + 2).
    - rewrite replaceFrom_skip_to_end; [apply app_nil_r|].
      cbn [List.length]. rewrite length_app. cbn [List.length]. lia.
    - unfold boldPat.
      rewrite (spanNot_until 42 (b :: t') [42%N] T42).
      reflexivity. }
  rewrite Hh, Hb, Hi, Hc, Hl.
  rewrite (listPat_single_line t Hopen Tline). reflexivity.
Qed.

(** One to six hash signs and a white space at the head of a text are one
    match of the header rule. *)
Lemma headerPat_at_heading :
  forall (k : nat) (sp : N) (t : jsstring) (prev : option N),
    1 <= k <= 6 ->
    isSpaceClass sp = true ->
    headerPat prev (repeat 35%N k ++ sp :: t) = Some ([], S k).
Proof.
  intros k sp t prev Hk Hsp.
  assert (Hne : N.eqb 35 sp = false).
  { destruct (N.eqb_spec 35 sp) as [Heq|]; [|reflexivity].
    subst sp. discriminate Hsp. }
  unfold headerPat, headerAt.
  destruct k as [|[|[|[|[|[|[|k]]]]]]]; try lia;
    cbn [repeat app find firstn forallb nth_error List.length Nat.eqb];
    rewrite ?N.eqb_refl, ?Hne, ?Hsp;
    cbn [andb]; rewrite ?andb_false_r; cbn [andb]; reflexivity.
Qed.

(** X19: a heading, one to six hash signs and a white space before an
    inline-plain text, loses its marker, and the text is trimmed. *)
Theorem stripMarkdown_heading :
  forall (k : nat) (sp : N) (t : jsstring),
    1 <= k <= 6 ->
    isSpaceClass sp = true ->
    forallb isInlinePlain t = true ->
    opensWithoutListMarker t = true ->
    stripMarkdown (repeat 35%N k ++ sp :: t) = trim t.
Proof.
  intros k sp t Hk Hsp Hplain Hopen.
  destruct (inline_plain_parts t Hplain) as [T35 [_ [_ [_ Tline]]]].
  destruct (inline_rules_identity t Hplain) as [_ [Hb [Hi [Hc Hl]]]].
  unfold stripMarkdown.
  assert (Hh : replaceAll headerPat (repeat 35%N k ++ sp :: t) = t).
  { unfold replaceAll.
    pose proof (headerPat_at_heading k sp t None Hk Hsp) as Hat.
    assert (Htail : forall prev, replaceFrom headerPat 0 prev t = t).
    { intros prev.
      apply (replaceFrom_untriggered headerPat (fun c => N.eqb c 35));
        [apply headerPat_needs_hash|exact T35]. }
    destruct k as [|[|[|[|[|[|[|k]]]]]]]; try lia;
      cbn [repeat app] in *;
      rewrite replaceFrom_match with (replacement := []) (k := _)
        by exact Hat;
      cbn [replaceFrom app]; apply Htail. }
  rewrite Hh, Hb, Hi, Hc, Hl.
  rewrite (listPat_single_line t Hopen Tline). reflexivity.
Qed.

(** ** The items *)

Lemma description_by_length_witness :
  descriptionText (itemDescription (rowOfLength 600) [])
  = escapeXml (firstn 500 (stripMarkdown (repeat 97%N 600))) ++ lit "...".
Proof.
  destruct (@description_by_length (rowOfLength 600) 97%N (repeat 97%N 599)
              [] eq_refl) as [Hlong _].
  apply Hlong. apply Nat.ltb_lt. vm_compute. reflexivity.
Defined.

(** X21: a row whose summary is null or empty gets the label of its
    granularity as description, unescaped text being its own escaped form,
    and no ellipsis: in the handler with the three granularities
    [<label> contributor activity summary], in the daily handler
    [Daily contributor activity summary]. *)
Theorem missing_summary_uses_label :
  forall row : OverallSummary,
    truthy (summary row) = false ->
    descriptionText
      (itemDescription row
         (lit "Monthly Summary" ++ lit " contributor activity summary"))
    = lit "Monthly Summary contributor activity summary"
    /\ descriptionText
         (itemDescription row
            (lit "Weekly Summary" ++ lit " contributor activity summary"))
       = lit "Weekly Summary contributor activity summary"
    /\ descriptionText
         (itemDescription row
            (lit "Daily Summary" ++ lit " contributor activity summary"))
       = lit "Daily Summary contributor activity summary"
    /\ descriptionText
         (itemDescription row (lit "Daily contributor activity summary"))
       = lit "Daily contributor activity summary".
Proof.
  intros row Hmissing.
  assert (Hfallback : forall fb, itemDescription row fb = fb).
  { intros fb. unfold itemDescription.
    destruct (summary row) as [[|c s]|]; try reflexivity. discriminate. }
  rewrite !Hfallback. repeat split; vm_compute; reflexivity.
Qed.

(** ** The query and the feeds *)

Lemma selectRecent_exact_length :
  forall (ty : IntervalType) (k : nat) (db : list OverallSummary),
    List.length (selectRecent ty k db)
    = Nat.min k (List.length (rowsOf ty db)).
Proof.
  intros ty k db. unfold selectRecent. fold (rowsOf ty db).
  rewrite length_firstn.
  rewrite <- (Permutation_length (orderByDateDesc_perm (rowsOf ty db))).
  reflexivity.
Qed.

(** X22: the handler with the three granularities serves
    min(1, monthly rows) + min(4, weekly rows) + min(30, daily rows) items,
    never more than 35; the daily handler serves min(20, daily rows). *)
Theorem feed_item_count :
  forall (siteUrl : option jsstring) (utcString : jsstring -> jsstring)
         (db : list OverallSummary),
    List.length (feedItems siteUrl utcString db)
    = Nat.min 1 (List.length (rowsOf month db))
      + Nat.min 4 (List.length (rowsOf week db))
      + Nat.min 30 (List.length (rowsOf day db))
    /\ List.length (feedItems siteUrl utcString db) <= 35
    /\ List.length (dailyFeedItems siteUrl utcString db)
       = Nat.min 20 (List.length (rowsOf day db)).
Proof.
  intros siteUrl utcString db.
  assert (Hcount :
            List.length (feedItems siteUrl utcString db)
            = Nat.min 1 (List.length (rowsOf month db))
              + Nat.min 4 (List.length (rowsOf week db))
              + Nat.min 30 (List.length (rowsOf day db))).
  { unfold feedItems. rewrite !length_app, !length_map.
    rewrite !selectRecent_exact_length. lia. }
  split; [exact Hcount|]. split.
  - rewrite Hcount. lia.
  - unfold dailyFeedItems. rewrite length_map.
    apply selectRecent_exact_length.
Qed.

Lemma selectRecent_prefix :
  forall (ty : IntervalType) (k j : nat) (db : list OverallSummary),
    selectRecent ty k db = firstn k (selectRecent ty (k + j) db).
Proof.
  intros ty k j db. unfold selectRecent. rewrite firstn_firstn.
  replace (Nat.min k (k + j)) with k by lia. reflexivity.
Qed.

(** X23: raising the limit of the query only appends older rows; and on a
    table whose daily rows all carry a summary, the items of the daily
    handler are the first 20 of the daily items of the handler with the
    three granularities. *)
Theorem daily_route_is_prefix :
  forall (siteUrl : option jsstring) (utcString : jsstring -> jsstring)
         (db : list OverallSummary),
    (forall ty k j,
        selectRecent ty k db = firstn k (selectRecent ty (k + j) db))
    /\ ((forall r, In r db -> intervalType r = day ->
                   truthy (summary r) = true) ->
        dailyFeedItems siteUrl utcString db
        = firstn 20
            (map (fun r => formatItem siteUrl utcString r (lit "day")
                             (lit "Daily Summary"))
               (selectRecent day 30 db))).
Proof.
  intros siteUrl utcString db. split.
  - intros ty k j. apply selectRecent_prefix.
  - intros Hsum. unfold dailyFeedItems.
    rewrite (selectRecent_prefix day 20 10 db).
    change (20 + 10) with 30. rewrite firstn_map.
    apply map_ext_in. intros r Hr. apply in_firstn in Hr.
    destruct (selectRecent_granularity _ _ _ _ Hr) as [Hday Hdb].
    specialize (Hsum r Hdb Hday).
    unfold formatDailyItem, formatItem, itemTitle, itemDescription.
    destruct (summary r) as [[|c s]|]; try discriminate. reflexivity.
Qed.

(** X24: a limit that covers all rows of a granularity returns them all,
    from the latest to the earliest. *)
Theorem selectRecent_all_when_limit_large :
  forall (ty : IntervalType) (k : nat) (db : list OverallSummary),
    List.length (rowsOf ty db) <= k ->
    Permutation (rowsOf ty db) (selectRecent ty k db)
    /\ Descending (selectRecent ty k db).
Proof.
  intros ty k db Hk. unfold selectRecent. fold (rowsOf ty db).
  rewrite firstn_all2.
  - split; [apply orderByDateDesc_perm|apply orderByDateDesc_descending].
  - rewrite <- (Permutation_length (orderByDateDesc_perm (rowsOf ty db))).
    exact Hk.
Qed.

(** *** The order of the table *)

Lemma jscompare_eq :
  forall a b : jsstring, jscompare a b = Eq -> a = b.
Proof.
  induction a as [|x a IH]; intros [|y b] H; simpl in H;
    try discriminate; [reflexivity|].
  destruct (N.compare_spec x y); try discriminate.
  subst y. f_equal. apply IH. exact H.
Qed.

Lemma dateLeb_antisym :
  forall a b : jsstring,
    dateLeb a b = true -> dateLeb b a = true -> a = b.
Proof.
  intros a b Hab Hba. unfold dateLeb in *.
  rewrite (jscompare_flip a b) in Hba.
  destruct (jscompare a b) eqn:Hcmp; simpl in *; try discriminate.
  apply jscompare_eq. exact Hcmp.
Qed.

Lemma rowsOf_perm :
  forall (ty : IntervalType) (db db' : list OverallSummary),
    Permutation db db' -> Permutation (rowsOf ty db) (rowsOf ty db').
Proof.
  intros ty db db' Hperm. unfold rowsOf.
  induction Hperm as [|x l l' Hperm IH|x y l|l l' l'' H1 IH1 H2 IH2]; simpl.
  - apply perm_nil.
  - destruct (IntervalType_eqb (intervalType x) ty);
      [apply perm_skip|]; exact IH.
  - destruct (IntervalType_eqb (intervalType x) ty),
             (IntervalType_eqb (intervalType y) ty);
      try apply perm_swap; apply Permutation_refl.
  - eapply perm_trans; eassumption.
Qed.

Lemma descending_head_latest :
  forall (x : OverallSummary) (l : list OverallSummary) (y : OverallSummary),
    Descending (x :: l) -> In y (x :: l) ->
    dateLeb (date y) (date x) = true.
Proof.
  intros x l y Hdesc Hy. unfold Descending in Hdesc.
  inversion Hdesc as [|x' l' Hl Hx]; subst.
  destruct Hy as [Hy|Hy].
  - subst y. unfold dateLeb.
    replace (jscompare (date x) (date x)) with Eq; [reflexivity|].
    symmetry. pose proof (jscompare_flip (date x) (date x)) as Hflip.
    destruct (jscompare (date x) (date x)); simpl in Hflip;
      try reflexivity; discriminate.
  - rewrite Forall_forall in Hx. apply Hx. exact Hy.
Qed.

(** Rows of distinct dates have one descending order. *)
Lemma descending_unique :
  forall l1 l2 : list OverallSummary,
    Descending l1 -> Descending l2 -> Permutation l1 l2 ->
    NoDup (map date l1) -> l1 = l2.
Proof.
  induction l1 as [|x l1 IH]; intros l2 H1 H2 Hperm Hnodup.
  - apply Permutation_nil in Hperm. symmetry. exact Hperm.
  - destruct l2 as [|y l2].
    { apply Permutation_sym, Permutation_nil in Hperm. discriminate. }
    assert (Hxy : x = y).
    { assert (Hx : In x (y :: l2))
        by (apply (Permutation_in _ Hperm); left; reflexivity).
      assert (Hy : In y (x :: l1))
        by (apply (Permutation_in _ (Permutation_sym Hperm)); left;
            reflexivity).
      destruct Hy as [Hy|Hy]; [exact Hy|].
      pose proof (descending_head_latest y l2 x H2 Hx) as Hle1.
      pose proof (descending_head_latest x l1 y H1 (or_intror Hy)) as Hle2.
      pose proof (dateLeb_antisym (date x) (date y) Hle1 Hle2) as Hdate.
      simpl in Hnodup. apply NoDup_cons_iff in Hnodup.
      destruct Hnodup as [Hnotin _]. exfalso. apply Hnotin.
      rewrite Hdate. apply in_map. exact Hy. }
    subst y. f_equal. apply IH.
    + unfold Descending in *. inversion H1; assumption.
    + unfold Descending in *. inversion H2; assumption.
    + apply (Permutation_cons_inv Hperm).
    + simpl in Hnodup. apply NoDup_cons_iff in Hnodup. apply Hnodup.
Qed.

(** X25: where the rows of a granularity have distinct dates, what the
    query returns does not depend on the order of the rows in the table. *)
Theorem selectRecent_ignores_table_order :
  forall (ty : IntervalType) (k : nat) (db db' : list OverallSummary),
    Permutation db db' ->
    NoDup (map date (rowsOf ty db)) ->
    selectRecent ty k db = selectRecent ty k db'.
Proof.
  intros ty k db db' Hperm Hnodup. unfold selectRecent.
  fold (rowsOf ty db). fold (rowsOf ty db'). f_equal.
  apply descending_unique.
  - apply orderByDateDesc_descending.
  - apply orderByDateDesc_descending.
  - eapply perm_trans;
      [apply Permutation_sym, orderByDateDesc_perm|].
    eapply perm_trans; [apply (rowsOf_perm ty db db' Hperm)|].
    apply orderByDateDesc_perm.
  - apply (Permutation_NoDup
             (Permutation_map date (orderByDateDesc_perm (rowsOf ty db)))).
    exact Hnodup.
Qed.

(** ** The further properties on concrete inputs *)

Lemma escapeXml_injective_witness :
  lit "a<b & c" = [97; 60; 98; 32; 38; 32; 99]%N.
Proof.
  apply (escapeXml_injective (lit "a<b & c") [97; 60; 98; 32; 38; 32; 99]%N).
  vm_compute. reflexivity.
Defined.

Lemma escapeXml_unchanged_iff_plain_witness :
  escapeXml (lit "Daily Summary: 2024-01-01") = lit "Daily Summary: 2024-01-01".
Proof.
  apply (proj1 (escapeXml_unchanged_iff_plain
                  (lit "Daily Summary: 2024-01-01"))).
  vm_compute. reflexivity.
Defined.

Lemma stripMarkdown_plain_line_witness :
  stripMarkdown (lit "  Fixed the login flow (2 PRs) ")
  = trim (lit "  Fixed the login flow (2 PRs) ").
Proof.
  apply (stripMarkdown_plain_line (lit "  Fixed the login flow (2 PRs) ")).
  - vm_compute. reflexivity.
  - vm_compute. reflexivity.
Defined.

Lemma stripMarkdown_is_trimmed_witness :
  isSpaceClass 84 = false.
Proof.
  apply (proj1 (stripMarkdown_is_trimmed (lit "  # Title  "))
           84%N (lit "itle")).
  vm_compute. reflexivity.
Defined.

Lemma stripMarkdown_link_witness :
  stripMarkdown (91%N :: lit "the docs" ++ 93%N :: 40%N
                   :: lit "https://example.org/a-b" ++ [41%N])
  = trim (lit "the docs").
Proof.
  apply (stripMarkdown_link (lit "the docs") (lit "https://example.org/a-b")).
  - discriminate.
  - discriminate.
  - vm_compute. reflexivity.
  - vm_compute. reflexivity.
  - vm_compute. reflexivity.
  - vm_compute. reflexivity.
  - vm_compute. reflexivity.
Defined.

Lemma stripMarkdown_bold_witness :
  stripMarkdown (42%N :: 42%N :: lit "12 merged" ++ [42%N; 42%N])
  = trim (lit "12 merged").
Proof.
  apply (stripMarkdown_bold (lit "12 merged")).
  - discriminate.
  - vm_compute. reflexivity.
  - vm_compute. reflexivity.
Defined.

Lemma stripMarkdown_heading_witness :
  stripMarkdown (repeat 35%N 3 ++ 32%N :: lit "Top contributors")
  = trim (lit "Top contributors").
Proof.
  apply (stripMarkdown_heading 3 32%N (lit "Top contributors")).
  - lia.
  - reflexivity.
  - vm_compute. reflexivity.
  - vm_compute. reflexivity.
Defined.

Lemma missing_summary_uses_label_witness :
  descriptionText
    (itemDescription
       {| date := lit "2024-01-01"; intervalType := week; summary := None |}
       (lit "Weekly Summary" ++ lit " contributor activity summary"))
  = lit "Weekly Summary contributor activity summary".
Proof.
  destruct (missing_summary_uses_label
              {| date := lit "2024-01-01"; intervalType := week;
                 summary := None |})
    as [_ [Hweek _]].
  - reflexivity.
  - exact Hweek.
Defined.

Lemma daily_route_is_prefix_witness :
  dailyFeedItems None (fun d => d)
    [dailyRow (lit "2024-01-") 1; dailyRow (lit "2024-01-") 2]
  = firstn 20
      (map (fun r => formatItem None (fun d => d) r (lit "day")
                       (lit "Daily Summary"))
         (selectRecent day 30
            [dailyRow (lit "2024-01-") 1; dailyRow (lit "2024-01-") 2])).
Proof.
  apply (proj2 (daily_route_is_prefix None (fun d => d)
                  [dailyRow (lit "2024-01-") 1; dailyRow (lit "2024-01-") 2])).
  intros r Hr _. simpl in Hr.
  destruct Hr as [Hr|[Hr|Hr]]; try contradiction; subst r; reflexivity.
Defined.

Lemma selectRecent_all_when_limit_large_witness :
  Permutation (rowsOf day thirtyFiveDays) (selectRecent day 40 thirtyFiveDays).
Proof.
  apply (selectRecent_all_when_limit_large day 40 thirtyFiveDays).
  apply Nat.leb_le. vm_compute. reflexivity.
Defined.

Lemma selectRecent_ignores_table_order_witness :
  selectRecent day 1
    [dailyRow (lit "2024-01-") 1; dailyRow (lit "2024-01-") 2]
  = selectRecent day 1
      [dailyRow (lit "2024-01-") 2; dailyRow (lit "2024-01-") 1].
Proof.
  apply (selectRecent_ignores_table_order day 1
           [dailyRow (lit "2024-01-") 1; dailyRow (lit "2024-01-") 2]
           [dailyRow (lit "2024-01-") 2; dailyRow (lit "2024-01-") 1]).
  - apply perm_swap.
  - vm_compute. repeat constructor; simpl; intuition discriminate.
Defined.

End RssExtra.
